(** * AngiDay meal planner: schema, row-level security policies and the
      recipe listing filter

    The repository consists of one SQL migration (nine tables, their
    constraints and fourteen row-level security policies) and three React
    components.  This development embeds

    - the schema of the migration as data (tables, column declarations,
      primary keys, foreign keys with their [ON DELETE] action, the tables
      with row security enabled),
    - the policies as data, each [USING] / [WITH CHECK] expression written
      as the SQL expression it is, in SQL's three-valued logic,
    - the way the store evaluates them (PostgreSQL: permissive policies are
      combined with OR, a command without an applicable policy is denied,
      a missing [WITH CHECK] falls back to [USING], a sub-select inside a
      policy is itself filtered by the policies of the table it reads,
      referential actions run at the end of the statement),
    - [fetchRecipes], [filteredRecipes] and the empty-state hint of
      [RecipeList.tsx], with the exception a method call on [null] raises,
    - [getProfile] and [updateProfile] of [UserProfile.tsx] with the
      component state they keep,
    - the migration as the script it is, run statement by statement
      against a catalog of tables and policies.

    [App.tsx] only switches between the two views behind the session
    check and is not modelled. *)

From Stdlib Require Import List String Ascii Bool ZArith NArith Lia.
Import ListNotations.
Local Open Scope string_scope.
Local Open Scope list_scope.

(* ================================================================== *)
(** * Values and SQL's three-valued logic *)

(** A column value.  [uuid] is a 128-bit number, [decimal(10,2)] is kept in
    hundredths, [date] and [timestamptz] as day and microsecond counts. *)
Inductive value : Type :=
| VNull
| VUuid (u : N)
| VText (s : string)
| VBool (b : bool)
| VInt (z : Z)
| VDecimal (hundredths : Z)
| VDate (d : Z)
| VTimestamp (t : Z)
| VTextArray (l : list string)
| VJson (j : string).

Definition value_eqb (a b : value) : bool :=
  match a, b with
  | VNull, VNull => true
  | VUuid x, VUuid y => N.eqb x y
  | VText x, VText y => String.eqb x y
  | VBool x, VBool y => Bool.eqb x y
  | VInt x, VInt y => Z.eqb x y
  | VDecimal x, VDecimal y => Z.eqb x y
  | VDate x, VDate y => Z.eqb x y
  | VTimestamp x, VTimestamp y => Z.eqb x y
  | VTextArray x, VTextArray y =>
      if list_eq_dec string_dec x y then true else false
  | VJson x, VJson y => String.eqb x y
  | _, _ => false
  end.

(** The result of a SQL boolean expression: [None] is NULL (unknown). *)
Definition sql_bool : Type := option bool.

(** [a = b]: NULL when either side is NULL. *)
Definition sql_eq (a b : value) : sql_bool :=
  match a, b with
  | VNull, _ | _, VNull => None
  | _, _ => Some (value_eqb a b)
  end.

Definition sql_or (a b : sql_bool) : sql_bool :=
  match a, b with
  | Some true, _ | _, Some true => Some true
  | Some false, Some false => Some false
  | _, _ => None
  end.

Definition sql_and (a b : sql_bool) : sql_bool :=
  match a, b with
  | Some false, _ | _, Some false => Some false
  | Some true, Some true => Some true
  | _, _ => None
  end.

Definition sql_true : sql_bool := Some true.

(** Conjunction and disjunction that leave their right operand alone when
    the left one decides. *)
Notation "a 'and_then' b" := (if a then b else false)
  (at level 40, left associativity, only parsing).
Notation "a 'or_else' b" := (if a then true else b)
  (at level 50, left associativity, only parsing).

(** A row passes a filter only when the filter is TRUE; NULL filters the
    row out like FALSE does. *)
Definition is_true (b : sql_bool) : bool :=
  match b with Some true => true | _ => false end.

(* ================================================================== *)
(** * The schema of the migration *)

Inductive table : Type :=
| profiles | tags | recipes | recipe_ingredients | recipe_tags
| meal_plans | meal_plan_items | shopping_lists | shopping_list_items.

Definition all_tables : list table :=
  [profiles; tags; recipes; recipe_ingredients; recipe_tags;
   meal_plans; meal_plan_items; shopping_lists; shopping_list_items].

Definition table_eqb (a b : table) : bool :=
  match a, b with
  | profiles, profiles | tags, tags | recipes, recipes
  | recipe_ingredients, recipe_ingredients | recipe_tags, recipe_tags
  | meal_plans, meal_plans | meal_plan_items, meal_plan_items
  | shopping_lists, shopping_lists
  | shopping_list_items, shopping_list_items => true
  | _, _ => false
  end.

(** Column names, as the migration spells them. *)
Module Col.
Inductive t : Type :=
| id | username | full_name | avatar_url | dietary_preferences
| created_at | updated_at
| name | type
| user_id | title | description | instructions
| prep_time_minutes | cook_time_minutes | servings | difficulty
| estimated_cost | calories_per_serving | image_url | source_url
| source_name | is_public
| recipe_id | amount | unit | notes
| tag_id
| start_date | end_date
| meal_plan_id | date | meal_type
| is_completed | total_cost
| shopping_list_id | ingredient_name | is_checked | category
| actual_cost.

Definition all : list t :=
  [id; username; full_name; avatar_url; dietary_preferences;
   created_at; updated_at; name; type; user_id; title; description;
   instructions; prep_time_minutes; cook_time_minutes; servings;
   difficulty; estimated_cost; calories_per_serving; image_url;
   source_url; source_name; is_public; recipe_id; amount; unit; notes;
   tag_id; start_date; end_date; meal_plan_id; date; meal_type;
   is_completed; total_cost; shopping_list_id; ingredient_name;
   is_checked; category; actual_cost].

Definition eq_dec (a b : t) : {a = b} + {a <> b}.
Proof. decide equality. Defined.

Definition eqb (a b : t) : bool := if eq_dec a b then true else false.
End Col.

Inductive sql_type : Type :=
| T_uuid | T_text | T_boolean | T_integer | T_decimal | T_date
| T_timestamptz | T_text_array | T_jsonb.

Definition has_type (v : value) (ty : sql_type) : bool :=
  match v, ty with
  | VNull, _ => true
  | VUuid _, T_uuid | VText _, T_text | VBool _, T_boolean
  | VInt _, T_integer | VDecimal _, T_decimal | VDate _, T_date
  | VTimestamp _, T_timestamptz | VTextArray _, T_text_array
  | VJson _, T_jsonb => true
  | _, _ => false
  end.

Record column_decl : Type := column {
  c_name : Col.t;
  c_type : sql_type;
  c_not_null : bool
}.

Definition nullable := false.
Definition NOT_NULL := true.

(** [CREATE TABLE] bodies, one declaration per column in source order.
    A [PRIMARY KEY] column is not null. *)
Definition columns (t : table) : list column_decl :=
  match t with
  | profiles =>
      [column Col.id T_uuid NOT_NULL;
       column Col.username T_text nullable;
       column Col.full_name T_text nullable;
       column Col.avatar_url T_text nullable;
       column Col.dietary_preferences T_jsonb nullable;
       column Col.created_at T_timestamptz nullable;
       column Col.updated_at T_timestamptz nullable]
  | tags =>
      [column Col.id T_uuid NOT_NULL;
       column Col.name T_text NOT_NULL;
       column Col.type T_text NOT_NULL;
       column Col.created_at T_timestamptz nullable]
  | recipes =>
      [column Col.id T_uuid NOT_NULL;
       column Col.user_id T_uuid nullable;
       column Col.title T_text NOT_NULL;
       column Col.description T_text nullable;
       column Col.instructions T_text_array NOT_NULL;
       column Col.prep_time_minutes T_integer nullable;
       column Col.cook_time_minutes T_integer nullable;
       column Col.servings T_integer nullable;
       column Col.difficulty T_text nullable;
       column Col.estimated_cost T_decimal nullable;
       column Col.calories_per_serving T_integer nullable;
       column Col.image_url T_text nullable;
       column Col.source_url T_text nullable;
       column Col.source_name T_text nullable;
       column Col.is_public T_boolean nullable;
       column Col.created_at T_timestamptz nullable;
       column Col.updated_at T_timestamptz nullable]
  | recipe_ingredients =>
      [column Col.id T_uuid NOT_NULL;
       column Col.recipe_id T_uuid nullable;
       column Col.name T_text NOT_NULL;
       column Col.amount T_decimal nullable;
       column Col.unit T_text nullable;
       column Col.notes T_text nullable;
       column Col.created_at T_timestamptz nullable]
  | recipe_tags =>
      [column Col.recipe_id T_uuid NOT_NULL;
       column Col.tag_id T_uuid NOT_NULL]
  | meal_plans =>
      [column Col.id T_uuid NOT_NULL;
       column Col.user_id T_uuid nullable;
       column Col.title T_text NOT_NULL;
       column Col.start_date T_date NOT_NULL;
       column Col.end_date T_date NOT_NULL;
       column Col.notes T_text nullable;
       column Col.created_at T_timestamptz nullable;
       column Col.updated_at T_timestamptz nullable]
  | meal_plan_items =>
      [column Col.id T_uuid NOT_NULL;
       column Col.meal_plan_id T_uuid nullable;
       column Col.recipe_id T_uuid nullable;
       column Col.date T_date NOT_NULL;
       column Col.meal_type T_text NOT_NULL;
       column Col.servings T_integer nullable;
       column Col.notes T_text nullable;
       column Col.created_at T_timestamptz nullable]
  | shopping_lists =>
      [column Col.id T_uuid NOT_NULL;
       column Col.user_id T_uuid nullable;
       column Col.title T_text NOT_NULL;
       column Col.meal_plan_id T_uuid nullable;
       column Col.is_completed T_boolean nullable;
       column Col.total_cost T_decimal nullable;
       column Col.created_at T_timestamptz nullable;
       column Col.updated_at T_timestamptz nullable]
  | shopping_list_items =>
      [column Col.id T_uuid NOT_NULL;
       column Col.shopping_list_id T_uuid nullable;
       column Col.ingredient_name T_text NOT_NULL;
       column Col.amount T_decimal nullable;
       column Col.unit T_text nullable;
       column Col.is_checked T_boolean nullable;
       column Col.category T_text nullable;
       column Col.estimated_cost T_decimal nullable;
       column Col.actual_cost T_decimal nullable;
       column Col.notes T_text nullable;
       column Col.created_at T_timestamptz nullable;
       column Col.updated_at T_timestamptz nullable]
  end.

Definition primary_key (t : table) : list Col.t :=
  match t with
  | recipe_tags => [Col.recipe_id; Col.tag_id]
  | _ => [Col.id]
  end.

(** [username text UNIQUE] is the only unique constraint besides the
    primary keys. *)
Definition unique_columns (t : table) : list Col.t :=
  match t with
  | profiles => [Col.username]
  | _ => []
  end.

(** What a [REFERENCES] clause points at: a table of this migration, or
    [auth.users] of the identity provider. *)
Inductive ref_target : Type :=
| Public (t : table)
| AuthUsers.

(** A column without an [ON DELETE] clause has the default, [NO ACTION]:
    deleting a row that is still referenced is an error. *)
Inductive ref_action : Type := NO_ACTION | CASCADE.

Record foreign_key : Type := references {
  fk_child : table;
  fk_col : Col.t;
  fk_parent : ref_target;
  fk_on_delete : ref_action
}.

(** Every [REFERENCES] clause of the migration, in source order; all of
    them reference the column [id] of the parent. *)
Definition foreign_keys : list foreign_key :=
  [references profiles Col.id AuthUsers NO_ACTION;
   references recipes Col.user_id AuthUsers NO_ACTION;
   references recipe_ingredients Col.recipe_id (Public recipes) CASCADE;
   references recipe_tags Col.recipe_id (Public recipes) CASCADE;
   references recipe_tags Col.tag_id (Public tags) CASCADE;
   references meal_plans Col.user_id AuthUsers NO_ACTION;
   references meal_plan_items Col.meal_plan_id (Public meal_plans) CASCADE;
   references meal_plan_items Col.recipe_id (Public recipes) NO_ACTION;
   references shopping_lists Col.user_id AuthUsers NO_ACTION;
   references shopping_lists Col.meal_plan_id (Public meal_plans) NO_ACTION;
   references shopping_list_items Col.shopping_list_id
     (Public shopping_lists) CASCADE].

(** [ALTER TABLE ... ENABLE ROW LEVEL SECURITY], in source order. *)
Definition row_security_enabled : list table :=
  [profiles; recipes; recipe_ingredients; recipe_tags; meal_plans;
   meal_plan_items; shopping_lists; shopping_list_items; tags].

(* ================================================================== *)
(** * Rows and the stored state *)

(** A row gives every column a value; a column the table does not have is
    NULL. *)
Definition row : Type := Col.t -> value.

Record database : Type := mk_database {
  rows : table -> list row;
  auth_users : list N
}.

Definition empty_row : row := fun _ => VNull.

Definition set_col (r : row) (c : Col.t) (v : value) : row :=
  fun c' => if Col.eqb c' c then v else r c'.

(* ================================================================== *)
(** * Sessions *)

(** The two database roles a request of the application runs as.  Every
    policy of the migration is declared [TO authenticated]. *)
Inductive role : Type := anon | authenticated.

Definition role_eqb (a b : role) : bool :=
  match a, b with
  | anon, anon | authenticated, authenticated => true
  | _, _ => false
  end.

(** A request carries its role and the subject of its token. *)
Record session : Type := mk_session {
  session_role : role;
  session_sub : option N
}.

(** [auth.uid()]: the subject of the token, NULL without one. *)
Definition auth_uid (s : session) : value :=
  match session_sub s with
  | Some u => VUuid u
  | None => VNull
  end.

(** The session of the signed-in user [u]. *)
Definition signed_in (u : N) : session := mk_session authenticated (Some u).

(* ================================================================== *)
(** * The policies *)

Inductive command : Type := SELECT | INSERT | UPDATE | DELETE.

(** The [FOR] clause of a policy. *)
Inductive policy_for : Type :=
| FOR_ALL | FOR_SELECT | FOR_INSERT | FOR_UPDATE | FOR_DELETE.

(** A policy expression.  Its second argument is what a sub-select
    [SELECT ... FROM t] inside the expression ranges over. *)
Definition qual : Type := session -> (table -> list row) -> row -> sql_bool.

Record policy : Type := create_policy {
  pol_name : string;
  pol_table : table;
  pol_for : policy_for;
  pol_to : list role;
  pol_using : option qual;
  pol_with_check : option qual
}.

(** [EXISTS (SELECT 1 FROM t WHERE w)]: never NULL. *)
Definition sql_exists (from : list row) (w : row -> sql_bool) : sql_bool :=
  Some (existsb (fun r => is_true (w r)) from).

(** USING (auth.uid() = id) *)
Definition uid_is_id : qual :=
  fun s _ r => sql_eq (auth_uid s) (r Col.id).

(** USING (auth.uid() = user_id) *)
Definition uid_is_user_id : qual :=
  fun s _ r => sql_eq (auth_uid s) (r Col.user_id).

(** USING (is_public = true OR auth.uid() = user_id) *)
Definition public_or_own : qual :=
  fun s _ r =>
    sql_or (sql_eq (r Col.is_public) (VBool true))
           (sql_eq (auth_uid s) (r Col.user_id)).

(** USING (EXISTS (SELECT 1 FROM recipes
             WHERE recipes.id = recipe_ingredients.recipe_id
             AND (recipes.is_public = true OR recipes.user_id = auth.uid()))) *)
Definition recipe_public_or_own : qual :=
  fun s from r =>
    sql_exists (from recipes) (fun p =>
      sql_and (sql_eq (p Col.id) (r Col.recipe_id))
              (sql_or (sql_eq (p Col.is_public) (VBool true))
                      (sql_eq (p Col.user_id) (auth_uid s)))).

(** USING (EXISTS (SELECT 1 FROM parent
             WHERE parent.id = child.fk AND parent.user_id = auth.uid())),
    the expression of the five policies on the child tables. *)
Definition parent_own (parent : table) (fk : Col.t) : qual :=
  fun s from r =>
    sql_exists (from parent) (fun p =>
      sql_and (sql_eq (p Col.id) (r fk))
              (sql_eq (p Col.user_id) (auth_uid s))).

(** USING (true) *)
Definition always : qual := fun _ _ _ => sql_true.

(** The fourteen [CREATE POLICY] statements, in source order. *)
Definition policies : list policy :=
  [create_policy "Users can view their own profile"
     profiles FOR_SELECT [authenticated] (Some uid_is_id) None;
   create_policy "Users can update their own profile"
     profiles FOR_UPDATE [authenticated] (Some uid_is_id) None;
   create_policy "Anyone can view public recipes"
     recipes FOR_SELECT [authenticated] (Some public_or_own) None;
   create_policy "Users can create recipes"
     recipes FOR_INSERT [authenticated] None (Some uid_is_user_id);
   create_policy "Users can update their own recipes"
     recipes FOR_UPDATE [authenticated] (Some uid_is_user_id) None;
   create_policy "Users can view recipe ingredients"
     recipe_ingredients FOR_SELECT [authenticated]
     (Some recipe_public_or_own) None;
   create_policy "Users can manage their recipe ingredients"
     recipe_ingredients FOR_ALL [authenticated]
     (Some (parent_own recipes Col.recipe_id)) None;
   create_policy "Anyone can view tags"
     tags FOR_SELECT [authenticated] (Some always) None;
   create_policy "Anyone can view recipe tags"
     recipe_tags FOR_SELECT [authenticated] (Some always) None;
   create_policy "Users can manage their recipe tags"
     recipe_tags FOR_ALL [authenticated]
     (Some (parent_own recipes Col.recipe_id)) None;
   create_policy "Users can manage their meal plans"
     meal_plans FOR_ALL [authenticated] (Some uid_is_user_id) None;
   create_policy "Users can manage their meal plan items"
     meal_plan_items FOR_ALL [authenticated]
     (Some (parent_own meal_plans Col.meal_plan_id)) None;
   create_policy "Users can manage their shopping lists"
     shopping_lists FOR_ALL [authenticated] (Some uid_is_user_id) None;
   create_policy "Users can manage their shopping list items"
     shopping_list_items FOR_ALL [authenticated]
     (Some (parent_own shopping_lists Col.shopping_list_id)) None].

(* ================================================================== *)
(** * Policy evaluation *)

Definition for_matches (f : policy_for) (c : command) : bool :=
  match f, c with
  | FOR_ALL, _ => true
  | FOR_SELECT, SELECT | FOR_INSERT, INSERT
  | FOR_UPDATE, UPDATE | FOR_DELETE, DELETE => true
  | _, _ => false
  end.

(** The policies the store consults for command [c] on table [t] in
    session [s]. *)
Definition applies (t : table) (c : command) (s : session) (p : policy)
  : bool :=
  table_eqb (pol_table p) t
  && for_matches (pol_for p) c
  && existsb (role_eqb (session_role s)) (pol_to p).

Definition holds (q : option qual) (s : session)
  (from : table -> list row) (r : row) : bool :=
  match q with
  | Some e => is_true (e s from r)
  | None => false
  end.

(** The expression a policy contributes to the check of a new row: its
    [WITH CHECK], or its [USING] when it has none. *)
Definition check_qual (p : policy) : option qual :=
  match pol_with_check p with
  | Some e => Some e
  | None => pol_using p
  end.

Definition rls_enabled (t : table) : bool :=
  existsb (table_eqb t) row_security_enabled.

(** An existing row is visible to command [c] when some applicable policy's
    [USING] is true for it; without row security every row is. *)
Definition using_passes (from : table -> list row) (t : table)
  (c : command) (s : session) (r : row) : bool :=
  if rls_enabled t
  then existsb
         (fun p => applies t c s p and_then holds (pol_using p) s from r)
         policies
  else true.

(** A new row is accepted by command [c] when some applicable policy's
    check expression is true for it. *)
Definition check_passes (from : table -> list row) (t : table)
  (c : command) (s : session) (r : row) : bool :=
  if rls_enabled t
  then existsb
         (fun p => applies t c s p and_then holds (check_qual p) s from r)
         policies
  else true.

(** What a sub-select nested [depth] levels deep inside a policy reads from
    table [t]: the rows the SELECT policies of [t] let the session see. *)
Fixpoint visible (depth : nat) (s : session) (db : database) (t : table)
  : list row :=
  match depth with
  | O => []
  | S d => filter (using_passes (visible d s db) t SELECT s) (rows db t)
  end.

(** Policies that read each other in a cycle are rejected by the store, so
    a chain of nested sub-selects is shorter than the number of tables. *)
Definition nesting_bound : nat := List.length all_tables.

Definition sub_select (s : session) (db : database) : table -> list row :=
  visible nesting_bound s db.

(** Row-level decision for an existing row (SELECT, UPDATE, DELETE). *)
Definition using_ok (s : session) (db : database) (t : table)
  (c : command) (r : row) : bool :=
  using_passes (sub_select s db) t c s r.

(** Row-level decision for a new row (INSERT, UPDATE). *)
Definition check_ok (s : session) (db : database) (t : table)
  (c : command) (r : row) : bool :=
  check_passes (sub_select s db) t c s r.

(* ================================================================== *)
(** * Declared constraints *)

Definition is_null (v : value) : bool :=
  match v with VNull => true | _ => false end.

Fixpoint key_eqb (a b : list value) : bool :=
  match a, b with
  | [], [] => true
  | x :: a', y :: b' => value_eqb x y && key_eqb a' b'
  | _, _ => false
  end.

Fixpoint distinct (keys : list (list value)) : bool :=
  match keys with
  | [] => true
  | k :: rest => negb (existsb (key_eqb k) rest) && distinct rest
  end.

Definition key_of (t : table) (r : row) : list value :=
  map r (primary_key t).

Definition declared (t : table) (c : Col.t) : option column_decl :=
  find (fun d => Col.eqb (c_name d) c) (columns t).

(** Every value has the type of its column, a [NOT NULL] column is not
    null, and the row has nothing in a column the table lacks. *)
Definition row_well_formed (t : table) (r : row) : bool :=
  forallb (fun c =>
    match declared t c with
    | Some d =>
        has_type (r c) (c_type d)
        && (negb (c_not_null d) || negb (is_null (r c)))
    | None => is_null (r c)
    end) Col.all.

(** A [UNIQUE] column holds no value twice; NULLs do not count. *)
Definition unique_ok (t : table) (rs : list row) : bool :=
  forallb (fun c =>
    distinct (map (fun r => [r c])
                (filter (fun r => negb (is_null (r c))) rs)))
    (unique_columns t).

Definition table_ok (db : database) (t : table) : bool :=
  forallb (row_well_formed t) (rows db t)
  && distinct (map (key_of t) (rows db t))
  && unique_ok t (rows db t).

(** A non-null reference has a row to point at. *)
Definition fk_ok (db : database) (fk : foreign_key) : bool :=
  forallb (fun r =>
    is_null (r (fk_col fk))
    || match fk_parent fk with
       | Public p =>
           existsb (fun pr => value_eqb (pr Col.id) (r (fk_col fk)))
             (rows db p)
       | AuthUsers =>
           existsb (fun u => value_eqb (VUuid u) (r (fk_col fk)))
             (auth_users db)
       end)
    (rows db (fk_child fk)).

(** The state satisfies every constraint the migration declares. *)
Definition consistent (db : database) : bool :=
  forallb (table_ok db) all_tables && forallb (fk_ok db) foreign_keys.

(* ================================================================== *)
(** * Statements *)

(** The two ways the store refuses a statement: the policies, or the
    declared constraints. *)
Inductive failure : Type := AuthorizationFailure | IntegrityFailure.

Inductive result (A : Type) : Type :=
| Ok (a : A)
| Error (e : failure).
Arguments Ok {A} a.
Arguments Error {A} e.

(** A statement takes effect only if the state it leads to satisfies the
    constraints; otherwise it fails as a whole and nothing changes. *)
Definition commit (db' : database) : result database :=
  if consistent db' then Ok db' else Error IntegrityFailure.

Definition with_rows (db : database) (t : table) (rs : list row)
  : database :=
  mk_database (fun t' => if table_eqb t' t then rs else rows db t')
              (auth_users db).

(** [SELECT * FROM t WHERE w]: rows the policies hide are left out
    without an error. *)
Definition select_rows (s : session) (db : database) (t : table)
  (w : row -> sql_bool) : list row :=
  filter (fun r => using_ok s db t SELECT r && is_true (w r)) (rows db t).

(** The listing, and the lookup of one row by its id. *)
Definition select_all (s : session) (db : database) (t : table)
  : list row :=
  select_rows s db t (fun _ => sql_true).

Definition select_by_id (s : session) (db : database) (t : table)
  (i : N) : list row :=
  select_rows s db t (fun r => sql_eq (r Col.id) (VUuid i)).

(** [INSERT INTO t VALUES new], [new] with its defaults filled in.  The
    policies are checked before the constraints. *)
Definition insert_row (s : session) (db : database) (t : table)
  (new : row) : result database :=
  if check_ok s db t INSERT new
  then commit (with_rows db t (rows db t ++ [new]))
  else Error AuthorizationFailure.

(** [UPDATE t SET ... WHERE w]: rows the [USING] side hides are skipped
    without an error, a new row the check side refuses fails the
    statement. *)
Definition update_rows (s : session) (db : database) (t : table)
  (w : row -> sql_bool) (set : row -> row) : result database :=
  let hit := fun r => using_ok s db t UPDATE r && is_true (w r) in
  if forallb (fun r => check_ok s db t UPDATE (set r))
       (filter hit (rows db t))
  then commit (with_rows db t
                 (map (fun r => if hit r then set r else r) (rows db t)))
  else Error AuthorizationFailure.

Definition is_cascade (a : ref_action) : bool :=
  match a with CASCADE => true | NO_ACTION => false end.

(** One round of [ON DELETE CASCADE]: a row goes when it references,
    through a cascading foreign key, a row that goes. *)
Definition cascade_step (db : database) (doomed : table -> row -> bool)
  : table -> row -> bool :=
  fun t r =>
    doomed t r
    or_else
    existsb (fun fk =>
      table_eqb (fk_child fk) t && is_cascade (fk_on_delete fk)
      and_then
      match fk_parent fk with
      | Public p =>
          existsb (fun pr =>
            doomed p pr
            and_then is_true (sql_eq (pr Col.id) (r (fk_col fk))))
            (rows db p)
      | AuthUsers => false
      end) foreign_keys.

Fixpoint cascade (n : nat) (db : database) (doomed : table -> row -> bool)
  : table -> row -> bool :=
  match n with
  | O => doomed
  | S k => cascade k db (cascade_step db doomed)
  end.

(** Deleting the rows [hit] of [t], whoever asks: the cascades run, then
    the constraints are checked, so that a row still referenced through a
    [NO ACTION] foreign key fails the statement. *)
Definition delete_where (db : database) (t : table) (hit : row -> bool)
  : result database :=
  let doomed :=
    cascade nesting_bound db (fun t' r => table_eqb t' t && hit r) in
  commit (mk_database
            (fun t' => filter (fun r => negb (doomed t' r)) (rows db t'))
            (auth_users db)).

(** [DELETE FROM t WHERE w] in session [s]: rows the policies hide are
    skipped without an error. *)
Definition delete_rows (s : session) (db : database) (t : table)
  (w : row -> sql_bool) : result database :=
  delete_where db t (fun r => using_ok s db t DELETE r && is_true (w r)).

(** The state a statement leaves behind. *)
Definition state_after (db : database) (r : result database) : database :=
  match r with
  | Ok db' => db'
  | Error _ => db
  end.

(* ================================================================== *)
(** * [RecipeList.tsx] *)

Module RecipeList.

(** An expression either has a value or throws; the only exception the
    filter can raise is the [TypeError] of a method call on something that
    is not a string. *)
Inductive completion (A : Type) : Type :=
| Returns (a : A)
| TypeError.
Arguments Returns {A} a.
Arguments TypeError {A}.

Definition lower_ascii (c : ascii) : ascii :=
  let n := nat_of_ascii c in
  if (65 <=? n)%nat && (n <=? 90)%nat then ascii_of_nat (n + 32) else c.

(** [String.prototype.toLowerCase], on the ASCII letters. *)
Fixpoint lower (s : string) : string :=
  match s with
  | EmptyString => EmptyString
  | String c s' => String (lower_ascii c) (lower s')
  end.

(** [String.prototype.includes]. *)
Fixpoint includes (s q : string) : bool :=
  prefix q s
  || match s with
     | EmptyString => false
     | String _ s' => includes s' q
     end.

(** [v.toLowerCase()] for a field [v] of a fetched row: a [text] column
    arrives as a string, NULL as [null], and neither [null] nor a value
    of another type has the method. *)
Definition toLowerCase (v : value) : completion string :=
  match v with
  | VText s => Returns (lower s)
  | _ => TypeError
  end.

(** The callback of [recipes.filter]:
    [recipe.title.toLowerCase().includes(searchQuery.toLowerCase()) ||
     recipe.description.toLowerCase().includes(searchQuery.toLowerCase())],
    the right operand of [||] evaluated only when the left one is false. *)
Definition matches (searchQuery : string) (recipe : row)
  : completion bool :=
  match toLowerCase (recipe Col.title) with
  | TypeError => TypeError
  | Returns t =>
      if includes t (lower searchQuery) then Returns true
      else match toLowerCase (recipe Col.description) with
           | TypeError => TypeError
           | Returns d => Returns (includes d (lower searchQuery))
           end
  end.

(** [recipes.filter(callback)]: the callback runs on the elements in
    order, and an exception it throws ends the call. *)
Fixpoint filteredRecipes (recipes : list row) (searchQuery : string)
  : completion (list row) :=
  match recipes with
  | [] => Returns []
  | recipe :: rest =>
      match matches searchQuery recipe with
      | TypeError => TypeError
      | Returns keep =>
          match filteredRecipes rest searchQuery with
          | TypeError => TypeError
          | Returns shown => Returns (if keep then recipe :: shown else shown)
          end
      end
  end.

(** [fetchRecipes]: [supabase.from('recipes').select('*')], the rows of
    [recipes] the session may see.  (The ordering by [created_at] does not
    change which rows arrive.) *)
Definition fetchRecipes (s : session) (db : database) : list row :=
  select_all s db recipes.

(** The hint under the grid: rendered when [filteredRecipes.length === 0],
    its text chosen by [searchQuery ? ... : ...], the empty string being
    the only falsy one. *)
Definition empty_hint (shown : list row) (searchQuery : string)
  : option string :=
  match shown with
  | [] =>
      Some (match searchQuery with
            | EmptyString => "Get started by creating a new recipe"
            | String _ _ => "Try adjusting your search terms"
            end)
  | _ :: _ => None
  end.

End RecipeList.

(* ================================================================== *)
(** * [UserProfile.tsx] *)

Module UserProfile.

(** [interface Profile]: the four columns the component selects. *)
Record Profile : Type := mk_Profile {
  username : value;
  full_name : value;
  avatar_url : value;
  dietary_preferences : value
}.

(** [Partial<Profile>]: a field is present or absent. *)
Record Partial : Type := mk_Partial {
  set_username : option value;
  set_full_name : option value;
  set_avatar_url : option value;
  set_dietary_preferences : option value
}.

(** The component state: [loading] and [profile]. *)
Record state : Type := mk_state {
  loading : bool;
  profile : option Profile
}.

(** [useState(true)], [useState<Profile | null>(null)]. *)
Definition initial : state := mk_state true None.

(** [.select('username, full_name, avatar_url, dietary_preferences')] *)
Definition selected (r : row) : Profile :=
  mk_Profile (r Col.username) (r Col.full_name) (r Col.avatar_url)
             (r Col.dietary_preferences).

(** [.single()]: the row when the result has exactly one, an error
    otherwise. *)
Definition single {A} (l : list A) : option A :=
  match l with
  | [x] => Some x
  | _ => None
  end.

(** The request of [getProfile]:
    [from('profiles').select(...).eq('id', user.id).single()]. *)
Definition load (s : session) (db : database) (user : N) : option Profile :=
  single (map selected (select_by_id s db profiles user)).

(** [getProfile]: on success the data becomes the profile, on error the
    profile is left as it is; [loading] ends either way. *)
Definition getProfile (s : session) (db : database) (user : N) (st : state)
  : state :=
  match load s db user with
  | Some data => mk_state false (Some data)
  | None => mk_state false (profile st)
  end.

Definition or_keep (new : option value) (old : value) : value :=
  match new with
  | Some v => v
  | None => old
  end.

(** [UPDATE profiles SET <the fields present in updates>]. *)
Definition assign (updates : Partial) (r : row) : row :=
  fun c =>
    match c with
    | Col.username => or_keep (set_username updates) (r c)
    | Col.full_name => or_keep (set_full_name updates) (r c)
    | Col.avatar_url => or_keep (set_avatar_url updates) (r c)
    | Col.dietary_preferences =>
        or_keep (set_dietary_preferences updates) (r c)
    | _ => r c
    end.

(** [{ ...prev, ...updates }] *)
Definition spread (prev : Profile) (updates : Partial) : Profile :=
  mk_Profile
    (or_keep (set_username updates) (username prev))
    (or_keep (set_full_name updates) (full_name prev))
    (or_keep (set_avatar_url updates) (avatar_url prev))
    (or_keep (set_dietary_preferences updates) (dietary_preferences prev)).

(** [updateProfile]: [from('profiles').update(updates).eq('id', user.id)];
    without an error the local profile takes the updates when there is
    one, with an error (logged) neither the store nor the state change. *)
Definition updateProfile (s : session) (db : database) (user : N)
  (updates : Partial) (st : state) : database * state :=
  match update_rows s db profiles
          (fun r => sql_eq (r Col.id) (VUuid user)) (assign updates) with
  | Ok db' =>
      (db', mk_state (loading st)
              (match profile st with
               | Some prev => Some (spread prev updates)
               | None => None
               end))
  | Error _ => (db, st)
  end.

(** The local profile is what the store would hand out now. *)
Definition mirrors (s : session) (db : database) (user : N) (st : state)
  : Prop :=
  profile st = load s db user.

End UserProfile.

(* ================================================================== *)
(** * The migration as a script *)

Module Migration.

Inductive statement : Type :=
| DROP_POLICY_IF_EXISTS (name : string) (on : table)
| CREATE_TABLE_IF_NOT_EXISTS (t : table)
| ENABLE_ROW_LEVEL_SECURITY (t : table)
| CREATE_POLICY (p : policy).

(** The [DROP POLICY IF EXISTS] statements at the top, in source order. *)
Definition drops : list statement :=
  [DROP_POLICY_IF_EXISTS "Users can view their own profile" profiles;
   DROP_POLICY_IF_EXISTS "Users can update their own profile" profiles;
   DROP_POLICY_IF_EXISTS "Anyone can view public recipes" recipes;
   DROP_POLICY_IF_EXISTS "Users can create recipes" recipes;
   DROP_POLICY_IF_EXISTS "Users can update their own recipes" recipes;
   DROP_POLICY_IF_EXISTS "Users can view recipe ingredients"
     recipe_ingredients;
   DROP_POLICY_IF_EXISTS "Users can manage their recipe ingredients"
     recipe_ingredients;
   DROP_POLICY_IF_EXISTS "Anyone can view tags" tags;
   DROP_POLICY_IF_EXISTS "Anyone can view recipe tags" recipe_tags;
   DROP_POLICY_IF_EXISTS "Users can manage their recipe tags" recipe_tags;
   DROP_POLICY_IF_EXISTS "Users can manage their meal plans" meal_plans;
   DROP_POLICY_IF_EXISTS "Users can manage their meal plan items"
     meal_plan_items;
   DROP_POLICY_IF_EXISTS "Users can manage their shopping lists"
     shopping_lists;
   DROP_POLICY_IF_EXISTS "Users can manage their shopping list items"
     shopping_list_items].

(** The rest of the script: the tables, row security, the policies. *)
Definition creates : list statement :=
  map CREATE_TABLE_IF_NOT_EXISTS all_tables
  ++ map ENABLE_ROW_LEVEL_SECURITY row_security_enabled
  ++ map CREATE_POLICY policies.

Definition script : list statement := drops ++ creates.

(** What the store knows of the schema: the tables of the migration that
    exist, those with row security, and the policies.  [auth.users]
    belongs to the identity provider and is there throughout. *)
Record catalog : Type := mk_catalog {
  cat_tables : list table;
  cat_rls : list table;
  cat_policies : list policy
}.

Definition fresh : catalog := mk_catalog [] [] [].

Inductive ddl_error : Type :=
| undefined_table (t : table)
| duplicate_policy (name : string) (on : table).

Definition exists_table (c : catalog) (t : table) : bool :=
  existsb (table_eqb t) (cat_tables c).

(** A policy is known by its name and its table. *)
Definition is_policy (name : string) (on : table) (p : policy) : bool :=
  table_eqb (pol_table p) on && String.eqb (pol_name p) name.

(** The tables of the migration that [t] references. *)
Definition referenced (t : table) : list table :=
  flat_map (fun fk =>
    if table_eqb (fk_child fk) t
    then match fk_parent fk with
         | Public p => [p]
         | AuthUsers => []
         end
    else []) foreign_keys.

(** One statement.  [IF EXISTS] and [IF NOT EXISTS] turn the missing
    policy, the missing table of a policy to drop and the existing table
    into a notice; [CREATE POLICY] has no such clause. *)
Definition exec (st : statement) (c : catalog) : catalog + ddl_error :=
  match st with
  | DROP_POLICY_IF_EXISTS name on =>
      inl (mk_catalog (cat_tables c) (cat_rls c)
             (filter (fun p => negb (is_policy name on p)) (cat_policies c)))
  | CREATE_TABLE_IF_NOT_EXISTS t =>
      if exists_table c t then inl c
      else match find (fun p => negb (exists_table c p)) (referenced t) with
           | Some p => inr (undefined_table p)
           | None => inl (mk_catalog (cat_tables c ++ [t]) (cat_rls c)
                            (cat_policies c))
           end
  | ENABLE_ROW_LEVEL_SECURITY t =>
      if exists_table c t
      then inl (mk_catalog (cat_tables c)
                  (if existsb (table_eqb t) (cat_rls c) then cat_rls c
                   else cat_rls c ++ [t])
                  (cat_policies c))
      else inr (undefined_table t)
  | CREATE_POLICY p =>
      if exists_table c (pol_table p)
      then if existsb (is_policy (pol_name p) (pol_table p)) (cat_policies c)
           then inr (duplicate_policy (pol_name p) (pol_table p))
           else inl (mk_catalog (cat_tables c) (cat_rls c)
                       (cat_policies c ++ [p]))
      else inr (undefined_table (pol_table p))
  end.

(** A script stops at its first error. *)
Fixpoint run (sts : list statement) (c : catalog) : catalog + ddl_error :=
  match sts with
  | [] => inl c
  | st :: rest =>
      match exec st c with
      | inl c' => run rest c'
      | inr e => inr e
      end
  end.

End Migration.

(* ================================================================== *)
(** * A sample state *)

(** The row with the given fields; every other column is NULL. *)
Definition row_of (fields : list (Col.t * value)) : row :=
  fun c =>
    match find (fun f => Col.eqb (fst f) c) fields with
    | Some f => snd f
    | None => VNull
    end.

Module Sample.

Definition alice : N := 10.
Definition bob : N := 20.

Definition recipe (i owner : N) (name : string) (about : value)
  (public : bool) : row :=
  row_of [(Col.id, VUuid i); (Col.user_id, VUuid owner);
          (Col.title, VText name); (Col.description, about);
          (Col.instructions, VTextArray ["Mix"; "Bake"]);
          (Col.is_public, VBool public)].

(** Alice's private recipe, stored without a description. *)
Definition soup : row := recipe 1 alice "Soup" VNull false.

(** Alice's public recipe. *)
Definition cake : row :=
  recipe 2 alice "Carrot Cake" (VText "Moist and SPICED") true.

Definition flour : row :=
  row_of [(Col.id, VUuid 5); (Col.recipe_id, VUuid 2);
          (Col.name, VText "flour")].

Definition vegan : row :=
  row_of [(Col.id, VUuid 100); (Col.name, VText "vegan");
          (Col.type, VText "dietary")].

Definition soup_is_vegan : row :=
  row_of [(Col.recipe_id, VUuid 1); (Col.tag_id, VUuid 100)].

Definition week : row :=
  row_of [(Col.id, VUuid 7); (Col.user_id, VUuid alice);
          (Col.title, VText "Week 1"); (Col.start_date, VDate 0);
          (Col.end_date, VDate 6)].

Definition item (i plan rec : N) : row :=
  row_of [(Col.id, VUuid i); (Col.meal_plan_id, VUuid plan);
          (Col.recipe_id, VUuid rec); (Col.date, VDate 0);
          (Col.meal_type, VText "dinner"); (Col.servings, VInt 1)].

Definition groceries : row :=
  row_of [(Col.id, VUuid 11); (Col.user_id, VUuid alice);
          (Col.title, VText "Groceries"); (Col.meal_plan_id, VUuid 7)].

Definition profile_of (u : N) : row := row_of [(Col.id, VUuid u)].

(** Alice plans a week with two dinners; no shopping list yet. *)
Definition db : database :=
  mk_database
    (fun t =>
       match t with
       | profiles => [profile_of alice; profile_of bob]
       | tags => [vegan]
       | recipes => [soup; cake]
       | recipe_ingredients => [flour]
       | recipe_tags => [soup_is_vegan]
       | meal_plans => [week]
       | meal_plan_items => [item 8 7 1; item 9 7 2]
       | shopping_lists => []
       | shopping_list_items => []
       end)
    [alice; bob].

(** The same with a shopping list made from the week's plan. *)
Definition db_with_list : database := with_rows db shopping_lists [groceries].

End Sample.

(* ================================================================== *)
(** * Vocabulary of the properties *)

(** [child] references [parent] through its column [fk]: the values are
    equal and not NULL. *)
Definition refers_to (child : row) (fk : Col.t) (parent : row) : Prop :=
  child fk = parent Col.id /\ parent Col.id <> VNull.

(** The owning identity of a row is [u]: its own owner column for the
    tables that have one, the owner of the row it belongs to for the
    tables that hang off a recipe, a meal plan or a shopping list.  The
    tag catalog has no owner. *)
Definition owned_by (db : database) (u : N) (t : table) (r : row) : Prop :=
  match t with
  | profiles => r Col.id = VUuid u
  | recipes | meal_plans | shopping_lists => r Col.user_id = VUuid u
  | recipe_ingredients | recipe_tags =>
      exists p, In p (rows db recipes)
                /\ refers_to r Col.recipe_id p /\ p Col.user_id = VUuid u
  | meal_plan_items =>
      exists p, In p (rows db meal_plans)
                /\ refers_to r Col.meal_plan_id p /\ p Col.user_id = VUuid u
  | shopping_list_items =>
      exists p, In p (rows db shopping_lists)
                /\ refers_to r Col.shopping_list_id p
                /\ p Col.user_id = VUuid u
  | tags => False
  end.

(** The recipe [r] is, or the recipe the ingredient [r] belongs to is,
    flagged public. *)
Definition of_public_recipe (db : database) (t : table) (r : row) : Prop :=
  match t with
  | recipes => r Col.is_public = VBool true
  | recipe_ingredients =>
      exists p, In p (rows db recipes)
                /\ refers_to r Col.recipe_id p
                /\ p Col.is_public = VBool true
  | _ => False
  end.

(** The session is allowed command [c] on row [r] of [t], as an existing
    row or as a new one. *)
Definition permitted (s : session) (db : database) (t : table)
  (c : command) (r : row) : Prop :=
  match c with
  | SELECT | DELETE => using_ok s db t c r = true
  | INSERT => check_ok s db t c r = true
  | UPDATE => using_ok s db t c r = true \/ check_ok s db t c r = true
  end.

(** The foreign keys that cascade a delete. *)
Definition cascades : list foreign_key :=
  filter (fun fk => is_cascade (fk_on_delete fk)) foreign_keys.

(** The cascading foreign keys that leave table [t]. *)
Definition cascading_from (t : table) : list foreign_key :=
  filter (fun fk => table_eqb (fk_child fk) t && is_cascade (fk_on_delete fk))
    foreign_keys.

(** The script drops the policy [p]: one of its [DROP POLICY IF EXISTS]
    statements names it. *)
Definition dropped_by (sts : list Migration.statement) (p : policy) : bool :=
  existsb (fun st =>
    match st with
    | Migration.DROP_POLICY_IF_EXISTS name on => Migration.is_policy name on p
    | _ => false
    end) sts.

(** No two policies of the list have the same name on the same table. *)
Fixpoint clash_free (ps : list policy) : bool :=
  match ps with
  | [] => true
  | p :: rest =>
      negb (existsb (Migration.is_policy (pol_name p) (pol_table p)) rest)
      && clash_free rest
  end.

(** Every table of the list references only tables that are [seen] or
    come before it in the list. *)
Fixpoint in_order (seen l : list table) : bool :=
  match l with
  | [] => true
  | t :: rest =>
      forallb (fun p => existsb (table_eqb p) seen) (Migration.referenced t)
      && in_order (t :: seen) rest
  end.

(** The search as the listing is meant to run it: [q] occurs in the title
    or in the description, letter case aside; a missing text has no
    occurrence. *)
Definition text_contains (v : value) (q : string) : bool :=
  match v with
  | VText s => RecipeList.includes (RecipeList.lower s) (RecipeList.lower q)
  | _ => false
  end.

Definition search_spec (recipes : list row) (q : string) : list row :=
  filter (fun r => text_contains (r Col.title) q
                   || text_contains (r Col.description) q) recipes.

(** The rows the filter callback throws on: the title is not a string,
    or the title does not contain the query and the description is not a
    string. *)
Definition throws_on (q : string) (r : row) : bool :=
  match r Col.title with
  | VText t =>
      negb (RecipeList.includes (RecipeList.lower t) (RecipeList.lower q))
      && match r Col.description with
         | VText _ => false
         | _ => true
         end
  | _ => true
  end.

(* ================================================================== *)
(** * Lemmas on values and three-valued logic *)

Lemma value_eqb_eq (a b : value) : value_eqb a b = true <-> a = b.
Proof.
  destruct a, b; simpl; split; intros H; try discriminate H;
    try reflexivity.
  all: try (apply N.eqb_eq in H; congruence).
  all: try (apply String.eqb_eq in H; congruence).
  all: try (apply Bool.eqb_prop in H; congruence).
  all: try (apply Z.eqb_eq in H; congruence).
  all: try (destruct (list_eq_dec string_dec l l0);
            [congruence | discriminate H]).
  - injection H as ->. apply N.eqb_refl.
  - injection H as ->. apply String.eqb_refl.
  - injection H as ->. apply Bool.eqb_reflx.
  - injection H as ->. apply Z.eqb_refl.
  - injection H as ->. apply Z.eqb_refl.
  - injection H as ->. apply Z.eqb_refl.
  - injection H as ->. apply Z.eqb_refl.
  - injection H as ->.
    destruct (list_eq_dec string_dec l0 l0); [reflexivity | contradiction].
  - injection H as ->. apply String.eqb_refl.
Qed.

Lemma value_eqb_refl (a : value) : value_eqb a a = true.
Proof. now apply value_eqb_eq. Qed.

Lemma is_true_sql_eq (a b : value) :
  is_true (sql_eq a b)
  = negb (is_null a) && negb (is_null b) && value_eqb a b.
Proof.
  destruct a, b; simpl; try reflexivity;
    match goal with
    | |- (if ?x then _ else _) = _ => destruct x; reflexivity
    end.
Qed.

(** A SQL equality is TRUE exactly when both sides are the same non-null
    value. *)
Lemma sql_eq_true (a b : value) :
  is_true (sql_eq a b) = true <-> a = b /\ b <> VNull.
Proof.
  rewrite is_true_sql_eq, !andb_true_iff, value_eqb_eq. split.
  - intros [[_ N] E]. split; [exact E|]. now destruct b.
  - intros [-> N]. now destruct b.
Qed.

Lemma sql_eq_sym (a b : value) : sql_eq a b = sql_eq b a.
Proof.
  destruct (value_eqb a b) eqn:E.
  - apply value_eqb_eq in E. now subst.
  - assert (E' : value_eqb b a = false).
    { destruct (value_eqb b a) eqn:E'; [|reflexivity].
      apply value_eqb_eq in E'. subst.
      now rewrite value_eqb_refl in E. }
    destruct a, b; simpl in *; try reflexivity; now rewrite E, E'.
Qed.

Lemma is_true_or (a b : sql_bool) :
  is_true (sql_or a b) = is_true a || is_true b.
Proof. destruct a as [[]|], b as [[]|]; reflexivity. Qed.

Lemma is_true_and (a b : sql_bool) :
  is_true (sql_and a b) = is_true a && is_true b.
Proof. destruct a as [[]|], b as [[]|]; reflexivity. Qed.

Lemma is_true_Some (b : bool) : is_true (Some b) = b.
Proof. now destruct b. Qed.

(* ================================================================== *)
(** * The decision table of the policies *)

Ltac eval_policies :=
  cbv [using_passes check_passes rls_enabled row_security_enabled policies
       applies existsb pol_table pol_for pol_to pol_using pol_with_check
       check_qual session_role table_eqb for_matches role_eqb andb orb
       holds].

Ltac split_ifs :=
  repeat match goal with
         | |- context [if ?x then _ else _] => destruct x
         end.

(** What the [USING] side comes to, table by table and command by
    command, for a request with the role [authenticated]. *)
Lemma using_authenticated from sub t c r :
  let s := mk_session authenticated sub in
  using_passes from t c s r =
  match t, c with
  | profiles, (SELECT | UPDATE) => is_true (uid_is_id s from r)
  | recipes, SELECT => is_true (public_or_own s from r)
  | recipes, UPDATE => is_true (uid_is_user_id s from r)
  | recipe_ingredients, SELECT =>
      is_true (recipe_public_or_own s from r)
      || is_true (parent_own recipes Col.recipe_id s from r)
  | recipe_ingredients, _ =>
      is_true (parent_own recipes Col.recipe_id s from r)
  | tags, SELECT => true
  | recipe_tags, SELECT => true
  | recipe_tags, _ => is_true (parent_own recipes Col.recipe_id s from r)
  | (meal_plans | shopping_lists), _ => is_true (uid_is_user_id s from r)
  | meal_plan_items, _ =>
      is_true (parent_own meal_plans Col.meal_plan_id s from r)
  | shopping_list_items, _ =>
      is_true (parent_own shopping_lists Col.shopping_list_id s from r)
  | _, _ => false
  end.
Proof.
  intros s. subst s.
  destruct t, c; eval_policies; try reflexivity; split_ifs; reflexivity.
Qed.

(** The check of a new row uses the same expressions, the policies having
    no [WITH CHECK] of their own, except for the insert policy of
    [recipes]. *)
Lemma check_authenticated from sub t c r :
  let s := mk_session authenticated sub in
  check_passes from t c s r =
  match t, c with
  | recipes, INSERT => is_true (uid_is_user_id s from r)
  | _, _ => using_passes from t c s r
  end.
Proof.
  intros s. subst s.
  destruct t, c; eval_policies; try reflexivity; split_ifs; reflexivity.
Qed.

(** No policy is declared for another role: an [anon] request passes
    nothing. *)
Lemma anon_denied from sub t c r :
  using_passes from t c (mk_session anon sub) r = false
  /\ check_passes from t c (mk_session anon sub) r = false.
Proof. destruct t, c; split; reflexivity. Qed.

Lemma visible_S d s db t :
  visible (S d) s db t
  = filter (using_passes (visible d s db) t SELECT s) (rows db t).
Proof. reflexivity. Qed.

(** The three tables that policies read in a sub-select have policies
    without sub-selects, so what a sub-select sees of them does not depend
    on the nesting depth. *)
Lemma sub_select_recipes sub db :
  let s := mk_session authenticated sub in
  sub_select s db recipes
  = filter (fun r => is_true (public_or_own s (fun _ => []) r))
      (rows db recipes).
Proof.
  intros s. unfold sub_select. change nesting_bound with (S 8).
  rewrite visible_S. apply filter_ext. intros r. subst s.
  now rewrite using_authenticated.
Qed.

Lemma sub_select_owned sub db t :
  t = meal_plans \/ t = shopping_lists ->
  let s := mk_session authenticated sub in
  sub_select s db t
  = filter (fun r => is_true (uid_is_user_id s (fun _ => []) r))
      (rows db t).
Proof.
  intros Ht s. unfold sub_select. change nesting_bound with (S 8).
  rewrite visible_S. apply filter_ext. intros r. subst s.
  rewrite using_authenticated. now destruct Ht; subst t.
Qed.

(** The sub-select of the child policies finds a row exactly when the
    child belongs to a row the caller owns. *)
Lemma parent_own_recipes u db fk r :
  let s := signed_in u in
  is_true (parent_own recipes fk s (sub_select s db) r) = true
  <-> exists p, In p (rows db recipes)
                /\ refers_to r fk p /\ p Col.user_id = VUuid u.
Proof.
  intros s. unfold parent_own, sql_exists. rewrite is_true_Some.
  rewrite existsb_exists. subst s. unfold signed_in.
  rewrite sub_select_recipes. unfold refers_to, auth_uid, session_sub.
  split.
  - intros (p & Hp & Hq). apply filter_In in Hp as [Hp _].
    rewrite is_true_and, andb_true_iff, !sql_eq_true in Hq.
    destruct Hq as [[E Hn] [E' _]]. exists p.
    repeat split; auto; congruence.
  - intros (p & Hp & [E Hn] & O). exists p. split.
    + apply filter_In. split; [exact Hp|].
      unfold public_or_own, auth_uid, session_sub.
      rewrite is_true_or, orb_true_iff. right.
      apply sql_eq_true. rewrite O. split; [reflexivity|discriminate].
    + rewrite is_true_and, andb_true_iff, !sql_eq_true.
      repeat split; try congruence; try discriminate.
Qed.

Lemma parent_own_owned u db t fk r :
  t = meal_plans \/ t = shopping_lists ->
  let s := signed_in u in
  is_true (parent_own t fk s (sub_select s db) r) = true
  <-> exists p, In p (rows db t)
                /\ refers_to r fk p /\ p Col.user_id = VUuid u.
Proof.
  intros Ht s. unfold parent_own, sql_exists. rewrite is_true_Some.
  rewrite existsb_exists. subst s. unfold signed_in.
  rewrite (sub_select_owned _ _ _ Ht).
  unfold refers_to, auth_uid, session_sub. split.
  - intros (p & Hp & Hq). apply filter_In in Hp as [Hp _].
    rewrite is_true_and, andb_true_iff, !sql_eq_true in Hq.
    destruct Hq as [[E Hn] [E' _]]. exists p.
    repeat split; auto; congruence.
  - intros (p & Hp & [E Hn] & O). exists p. split.
    + apply filter_In. split; [exact Hp|].
      unfold uid_is_user_id, auth_uid, session_sub.
      apply sql_eq_true. rewrite O. split; [reflexivity|discriminate].
    + rewrite is_true_and, andb_true_iff, !sql_eq_true.
      repeat split; try congruence; try discriminate.
Qed.

Lemma recipe_public_or_own_true u db r :
  let s := signed_in u in
  is_true (recipe_public_or_own s (sub_select s db) r) = true
  <-> exists p, In p (rows db recipes) /\ refers_to r Col.recipe_id p
                /\ (p Col.is_public = VBool true \/ p Col.user_id = VUuid u).
Proof.
  intros s. unfold recipe_public_or_own, sql_exists. rewrite is_true_Some.
  rewrite existsb_exists. subst s. unfold signed_in.
  rewrite sub_select_recipes.
  unfold refers_to, public_or_own, auth_uid, session_sub. split.
  - intros (p & Hp & Hq). apply filter_In in Hp as [Hp _].
    rewrite is_true_and, andb_true_iff, is_true_or, orb_true_iff,
      !sql_eq_true in Hq.
    destruct Hq as [[E Hn] D]. exists p.
    repeat split; auto; try congruence. destruct D as [[D _]|[D _]]; auto.
  - intros (p & Hp & [E Hn] & D). exists p.
    assert (V : is_true (sql_or (sql_eq (p Col.is_public) (VBool true))
                           (sql_eq (VUuid u) (p Col.user_id))) = true).
    { rewrite is_true_or, orb_true_iff, !sql_eq_true.
      destruct D as [D|D]; [left|right]; rewrite D;
        (split; [reflexivity|discriminate]). }
    split.
    + apply filter_In. split; [exact Hp|exact V].
    + rewrite is_true_and, andb_true_iff, sql_eq_true. split.
      * split; congruence.
      * now rewrite (sql_eq_sym (p Col.user_id)).
Qed.

(** What an expression of the policies says about the row, for the
    signed-in user [u]. *)
Lemma uid_is_id_true u from r :
  is_true (uid_is_id (signed_in u) from r) = true <-> r Col.id = VUuid u.
Proof.
  unfold uid_is_id, signed_in, auth_uid, session_sub.
  rewrite sql_eq_true. split.
  - now intros [E _].
  - intros E. rewrite E. split; [reflexivity|discriminate].
Qed.

Lemma uid_is_user_id_true u from r :
  is_true (uid_is_user_id (signed_in u) from r) = true
  <-> r Col.user_id = VUuid u.
Proof.
  unfold uid_is_user_id, signed_in, auth_uid, session_sub.
  rewrite sql_eq_true. split.
  - now intros [E _].
  - intros E. rewrite E. split; [reflexivity|discriminate].
Qed.

Lemma public_or_own_true u from r :
  is_true (public_or_own (signed_in u) from r) = true
  <-> r Col.is_public = VBool true \/ r Col.user_id = VUuid u.
Proof.
  unfold public_or_own, signed_in, auth_uid, session_sub.
  rewrite is_true_or, orb_true_iff, !sql_eq_true. split.
  - intros [[E _]|[E _]]; auto.
  - intros [E|E]; [left|right]; rewrite E;
      (split; [reflexivity|discriminate]).
Qed.

(** The decision on an existing row, for the signed-in user [u], in terms
    of the stored rows. *)
Lemma using_ok_signed_in u db t c r :
  using_ok (signed_in u) db t c r = true <->
  match t, c with
  | profiles, (SELECT | UPDATE) => r Col.id = VUuid u
  | recipes, SELECT =>
      r Col.is_public = VBool true \/ r Col.user_id = VUuid u
  | recipes, UPDATE => r Col.user_id = VUuid u
  | recipe_ingredients, SELECT =>
      exists p, In p (rows db recipes) /\ refers_to r Col.recipe_id p
                /\ (p Col.is_public = VBool true \/ p Col.user_id = VUuid u)
  | tags, SELECT | recipe_tags, SELECT => True
  | (profiles | recipes | tags), _ => False
  | _, _ => owned_by db u t r
  end.
Proof.
  unfold using_ok.
  change (using_passes (sub_select (signed_in u) db) t c (signed_in u) r)
    with (using_passes (sub_select (signed_in u) db) t c
            (mk_session authenticated (Some u)) r).
  rewrite using_authenticated.
  change (mk_session authenticated (Some u)) with (signed_in u).
  destruct t, c; cbv beta iota zeta; unfold owned_by;
    lazymatch goal with
    | |- false = true <-> False => split; [discriminate | contradiction]
    | |- true = true <-> True => split; [exact (fun _ => I) | reflexivity]
    | |- is_true (uid_is_id _ _ _) = true <-> _ => apply uid_is_id_true
    | |- is_true (uid_is_user_id _ _ _) = true <-> _ =>
        apply uid_is_user_id_true
    | |- is_true (public_or_own _ _ _) = true <-> _ =>
        apply public_or_own_true
    | |- is_true (parent_own recipes _ _ _ _) = true <-> _ =>
        apply parent_own_recipes
    | |- is_true (parent_own _ _ _ _ _) = true <-> _ =>
        apply parent_own_owned; auto
    | |- _ => idtac
    end.
  rewrite orb_true_iff, recipe_public_or_own_true, parent_own_recipes.
  split.
  - intros [H|(p & Hp & R & O)]; [exact H|]. exists p. auto.
  - auto.
Qed.

(** The decision on a new row. *)
Lemma check_ok_signed_in u db t c r :
  check_ok (signed_in u) db t c r = true <->
  match t, c with
  | recipes, INSERT => r Col.user_id = VUuid u
  | _, _ => using_ok (signed_in u) db t c r = true
  end.
Proof.
  unfold check_ok, using_ok.
  change (check_passes (sub_select (signed_in u) db) t c (signed_in u) r)
    with (check_passes (sub_select (signed_in u) db) t c
            (mk_session authenticated (Some u)) r).
  rewrite check_authenticated.
  change (mk_session authenticated (Some u)) with (signed_in u).
  destruct t, c; try reflexivity. apply uid_is_user_id_true.
Qed.

(* ================================================================== *)
(** * Lemmas on lists *)

Lemma existsb_none {A} (f : A -> bool) (l : list A) :
  (forall x, In x l -> f x = false) -> existsb f l = false.
Proof.
  induction l as [|a l IH]; intros H; [reflexivity|]. simpl.
  rewrite (H a (or_introl eq_refl)). apply IH. intros x Hx.
  apply H. now right.
Qed.

Lemma filter_all {A} (f : A -> bool) (l : list A) :
  (forall x, In x l -> f x = true) -> filter f l = l.
Proof.
  induction l as [|a l IH]; intros H; [reflexivity|]. simpl.
  rewrite (H a (or_introl eq_refl)). f_equal. apply IH. intros x Hx.
  apply H. now right.
Qed.

Lemma forallb_refuted {A} (f : A -> bool) (l : list A) (x : A) :
  In x l -> f x = false -> forallb f l = false.
Proof.
  intros Hx Hf. destruct (forallb f l) eqn:E; [|reflexivity].
  rewrite forallb_forall in E. now rewrite (E x Hx) in Hf.
Qed.

Lemma key_eqb_refl (k : list value) : key_eqb k k = true.
Proof.
  induction k as [|v k IH]; [reflexivity|]. simpl.
  now rewrite value_eqb_refl.
Qed.

(** Rows with distinct keys are told apart by their key. *)
Lemma distinct_inj {A} (key : A -> list value) (l : list A) (p q : A) :
  distinct (map key l) = true ->
  In p l -> In q l -> key p = key q -> p = q.
Proof.
  induction l as [|a l IH]; intros D Hp Hq E; [contradiction|].
  simpl in D. apply andb_true_iff in D as [Fresh D].
  apply negb_true_iff in Fresh.
  assert (Clash : forall x, In x l -> key a = key x -> False).
  { intros x Hx Ex.
    assert (T : existsb (key_eqb (key a)) (map key l) = true).
    { apply existsb_exists. exists (key x). split.
      - now apply in_map.
      - rewrite Ex. apply key_eqb_refl. }
    now rewrite T in Fresh. }
  destruct Hp as [<-|Hp], Hq as [<-|Hq].
  - reflexivity.
  - exfalso. now apply (Clash q).
  - exfalso. now apply (Clash p).
  - now apply IH.
Qed.

(* ================================================================== *)
(** * Lemmas on cascades and constraints *)

Lemma in_all_tables (t : table) : In t all_tables.
Proof. destruct t; simpl; tauto. Qed.

Lemma consistent_keys db t :
  consistent db = true -> distinct (map (key_of t) (rows db t)) = true.
Proof.
  unfold consistent. intros H. apply andb_true_iff in H as [H _].
  rewrite forallb_forall in H. specialize (H t (in_all_tables t)).
  unfold table_ok in H.
  now apply andb_true_iff in H as [H _]; apply andb_true_iff in H as [_ H].
Qed.

(** A state with a reference that points at nothing is refused. *)
Lemma dangling_refused db fk r :
  In fk foreign_keys -> In r (rows db (fk_child fk)) ->
  r (fk_col fk) <> VNull ->
  (forall p t, fk_parent fk = Public t -> In p (rows db t) ->
               p Col.id <> r (fk_col fk)) ->
  fk_parent fk <> AuthUsers ->
  commit db = Error IntegrityFailure.
Proof.
  intros Hfk Hr Hn Hd Hp. unfold commit.
  assert (C : consistent db = false); [|now rewrite C].
  unfold consistent. apply andb_false_iff. right.
  apply (forallb_refuted _ _ fk Hfk). unfold fk_ok.
  apply (forallb_refuted _ _ r Hr).
  apply orb_false_iff. split.
  - now destruct (r (fk_col fk)).
  - destruct (fk_parent fk) as [t|]; [|contradiction].
    apply existsb_none. intros p Hin.
    destruct (value_eqb (p Col.id) (r (fk_col fk))) eqn:E; [|reflexivity].
    apply value_eqb_eq in E. now apply (Hd p t eq_refl) in Hin.
Qed.

Lemma cascade_step_incr db d t r :
  d t r = true -> cascade_step db d t r = true.
Proof. intros H. unfold cascade_step. now rewrite H. Qed.

(** A row that is to go stays so through the cascades. *)
Lemma cascade_incr n db : forall d t r,
  d t r = true -> cascade n db d t r = true.
Proof.
  induction n as [|n IH]; intros d t r H; simpl; [exact H|].
  apply IH. now apply cascade_step_incr.
Qed.

(** A table without a cascading foreign key loses only the rows the
    statement names. *)
Lemma cascade_step_root db d t r :
  cascading_from t = [] -> cascade_step db d t r = d t r.
Proof.
  intros H. unfold cascade_step.
  destruct t; try discriminate H; cbn; now destruct (d _ r).
Qed.

Lemma cascade_root n db t r : forall d,
  cascading_from t = [] -> cascade n db d t r = d t r.
Proof.
  induction n as [|n IH]; intros d H; simpl; [reflexivity|].
  rewrite IH by exact H. now apply cascade_step_root.
Qed.

Lemma cascade_step_none db d :
  (forall t r, d t r = false) -> forall t r, cascade_step db d t r = false.
Proof.
  intros H t r. unfold cascade_step. rewrite H.
  apply existsb_none. intros fk _.
  destruct (table_eqb (fk_child fk) t && is_cascade (fk_on_delete fk));
    [|reflexivity].
  destruct (fk_parent fk); [|reflexivity].
  apply existsb_none. intros pr _. now rewrite H.
Qed.

(** Naming no row deletes no row. *)
Lemma cascade_none n db : forall d,
  (forall t r, d t r = false) -> forall t r, cascade n db d t r = false.
Proof.
  induction n as [|n IH]; intros d H t r; simpl; [apply H|].
  apply IH. now apply cascade_step_none.
Qed.

Lemma cascade_step_items db d it :
  cascade_step db d meal_plan_items it
  = d meal_plan_items it
    || existsb (fun pr => d meal_plans pr
                          && is_true (sql_eq (pr Col.id)
                                        (it Col.meal_plan_id)))
         (rows db meal_plans).
Proof.
  unfold cascade_step. cbn. destruct (d meal_plan_items it); [reflexivity|].
  now rewrite orb_false_r.
Qed.

(** Items go with their meal plan. *)
Lemma cascade_takes_items n db d p it :
  In p (rows db meal_plans) -> d meal_plans p = true ->
  refers_to it Col.meal_plan_id p ->
  cascade (S n) db d meal_plan_items it = true.
Proof.
  intros Hp Hd [E Hn]. simpl. apply cascade_incr.
  rewrite cascade_step_items. apply orb_true_iff. right.
  apply existsb_exists. exists p. split; [exact Hp|].
  rewrite Hd. apply sql_eq_true. split; congruence.
Qed.

(** Items stay when no meal plan goes. *)
Lemma cascade_keeps_items n db it : forall d,
  (forall r, d meal_plan_items r = false) ->
  (forall r, d meal_plans r = false) ->
  cascade n db d meal_plan_items it = false.
Proof.
  induction n as [|n IH]; intros d Hi Hm; simpl; [apply Hi|].
  apply IH.
  - intros r. rewrite cascade_step_items, Hi. apply existsb_none.
    intros pr _. now rewrite Hm.
  - intros r. rewrite cascade_step_root by reflexivity. apply Hm.
Qed.

(* ================================================================== *)
(** * Who may touch which row *)

(** C1 (as the policies have it).  For every table, command and signed-in
    user, a row the policies let the user touch is a row the user owns,
    directly or through the recipe, meal plan or shopping list it belongs
    to, with three exceptions for reading: a recipe flagged public and the
    ingredients of one, the tag catalog, and every row of [recipe_tags]
    whatever its recipe.  Each exception does grant the read. *)
Theorem access_requires_ownership u db t c r :
  (permitted (signed_in u) db t c r ->
   owned_by db u t r
   \/ (c = SELECT /\ of_public_recipe db t r)
   \/ (c = SELECT /\ t = tags)
   \/ (c = SELECT /\ t = recipe_tags))
  /\ (of_public_recipe db t r -> permitted (signed_in u) db t SELECT r)
  /\ permitted (signed_in u) db tags SELECT r
  /\ permitted (signed_in u) db recipe_tags SELECT r.
Proof.
  split; [|split; [|split]].
  - unfold permitted. intros H.
    assert (U : using_ok (signed_in u) db t c r = true
                \/ (t = recipes /\ c = INSERT /\ r Col.user_id = VUuid u)).
    { destruct c; try (left; exact H).
      - apply check_ok_signed_in in H. destruct t; auto.
      - destruct H as [H|H]; [now left|].
        apply check_ok_signed_in in H. destruct t; auto. }
    destruct U as [U|(-> & -> & O)]; [|now left].
    apply using_ok_signed_in in U.
    destruct t, c; simpl in *; try contradiction; auto.
    + destruct U as [P|O]; auto.
    + destruct U as (p & Hp & R & [P|O]).
      * right. left. split; [reflexivity|]. now exists p.
      * left. now exists p.
  - intros P. unfold permitted. apply using_ok_signed_in.
    destruct t; try contradiction; simpl in *.
    + now left.
    + destruct P as (p & Hp & R & P). exists p. auto.
  - unfold permitted. now apply using_ok_signed_in.
  - unfold permitted. now apply using_ok_signed_in.
Qed.

(** The tag row of a private recipe is read by a user who does not own
    the recipe: on the sample state Bob reads the tag of Alice's private
    soup, so "not readable by a non-owner" does not hold for
    [recipe_tags]. *)
Lemma private_recipe_tag_is_readable :
  In Sample.soup_is_vegan
    (select_all (signed_in Sample.bob) Sample.db recipe_tags)
  /\ In Sample.soup (rows Sample.db recipes)
  /\ refers_to Sample.soup_is_vegan Col.recipe_id Sample.soup
  /\ Sample.soup Col.is_public = VBool false
  /\ Sample.soup Col.user_id = VUuid Sample.alice
  /\ Sample.alice <> Sample.bob
  /\ ~ owned_by Sample.db Sample.bob recipe_tags Sample.soup_is_vegan.
Proof.
  repeat split; try discriminate.
  - vm_compute. now left.
  - now left.
  - intros (p & [<-|[<-|[]]] & [E _] & O); discriminate.
Qed.

Lemma access_requires_ownership_witness :
  owned_by Sample.db Sample.alice meal_plan_items (Sample.item 8 7 1)
  \/ (DELETE = SELECT
      /\ of_public_recipe Sample.db meal_plan_items (Sample.item 8 7 1))
  \/ (DELETE = SELECT /\ meal_plan_items = tags)
  \/ (DELETE = SELECT /\ meal_plan_items = recipe_tags).
Proof.
  apply (access_requires_ownership Sample.alice Sample.db meal_plan_items
           DELETE (Sample.item 8 7 1)).
  vm_compute. reflexivity.
Defined.

(* ================================================================== *)
(** * Statements against the policies *)

Lemma table_eqb_refl (t : table) : table_eqb t t = true.
Proof. now destruct t. Qed.

Lemma rows_with_rows db t l : rows (with_rows db t l) t = l.
Proof. simpl. now rewrite table_eqb_refl. Qed.

(** An update leaves alone every row its [USING] side hides. *)
Lemma update_skips_hidden s db t w set r :
  In r (rows db t) -> using_ok s db t UPDATE r = false ->
  In r (rows (state_after db (update_rows s db t w set)) t).
Proof.
  intros Hr Hu. unfold update_rows.
  destruct (forallb _ _); [|exact Hr].
  unfold commit. destruct (consistent _); [|exact Hr].
  unfold state_after. rewrite rows_with_rows. apply in_map_iff.
  exists r. now rewrite Hu.
Qed.

(** A delete that names no row the policies show changes no table. *)
Lemma delete_nothing s db t w :
  (forall r, using_ok s db t DELETE r = false) ->
  forall t', rows (state_after db (delete_rows s db t w)) t' = rows db t'.
Proof.
  intros H t'. unfold delete_rows, delete_where, commit.
  destruct (consistent _); [|reflexivity].
  unfold state_after. cbn [rows]. apply filter_all. intros r _.
  rewrite cascade_none; [reflexivity|].
  intros t0 r0. rewrite H. now destruct (table_eqb t0 t).
Qed.

(** C3.  A recipe flagged public is returned to every signed-in user who
    selects; an update or a delete touches it only for its owner: they
    pass the policies only when the caller is the owner, and run by
    anyone else they leave the row as it is. *)
Theorem public_recipe_read_by_all_written_by_owner u db r :
  In r (rows db recipes) -> r Col.is_public = VBool true ->
  In r (select_all (signed_in u) db recipes)
  /\ (using_ok (signed_in u) db recipes UPDATE r = true ->
      r Col.user_id = VUuid u)
  /\ (using_ok (signed_in u) db recipes DELETE r = true ->
      r Col.user_id = VUuid u)
  /\ (r Col.user_id <> VUuid u ->
      forall w set,
        In r (rows (state_after db
                      (update_rows (signed_in u) db recipes w set)) recipes))
  /\ (r Col.user_id <> VUuid u ->
      forall w,
        In r (rows (state_after db
                      (delete_rows (signed_in u) db recipes w)) recipes)).
Proof.
  intros Hr P. split; [|split; [|split; [|split]]].
  - unfold select_all, select_rows. apply filter_In. split; [exact Hr|].
    apply andb_true_iff. split; [|reflexivity].
    apply using_ok_signed_in. now left.
  - intros H. now apply using_ok_signed_in in H.
  - intros H. now apply using_ok_signed_in in H.
  - intros O w set. apply update_skips_hidden; [exact Hr|].
    destruct (using_ok _ _ _ _ _) eqn:E; [|reflexivity].
    now apply using_ok_signed_in in E.
  - intros _ w. rewrite delete_nothing; [exact Hr|].
    intros r0. destruct (using_ok _ _ _ _ _) eqn:E; [|reflexivity].
    now apply using_ok_signed_in in E.
Qed.

Lemma public_recipe_read_by_all_written_by_owner_witness :
  In Sample.cake (select_all (signed_in Sample.bob) Sample.db recipes)
  /\ In Sample.cake
       (rows (state_after Sample.db
                (update_rows (signed_in Sample.bob) Sample.db recipes
                   (fun _ => sql_true)
                   (fun r => set_col r Col.title (VText "Mine"))))
          recipes).
Proof.
  destruct (public_recipe_read_by_all_written_by_owner Sample.bob Sample.db
              Sample.cake) as (S & _ & _ & U & _).
  - right. now left.
  - reflexivity.
  - split; [exact S|]. apply U. discriminate.
Defined.

(** C4.  A recipe flagged private is not returned to a signed-in user
    other than its owner, neither by the listing nor by the lookup of its
    id, and whatever that user selects from [recipes] comes out the same
    as from the state without the row. *)
Theorem private_recipe_hidden u db r :
  r Col.is_public = VBool false -> r Col.user_id <> VUuid u ->
  ~ In r (select_all (signed_in u) db recipes)
  /\ (forall i, ~ In r (select_by_id (signed_in u) db recipes i))
  /\ (forall w before after,
        rows db recipes = before ++ r :: after ->
        select_rows (signed_in u) db recipes w
        = select_rows (signed_in u)
            (with_rows db recipes (before ++ after)) recipes w).
Proof.
  intros P O.
  assert (Hid : forall db', using_ok (signed_in u) db' recipes SELECT r
                            = false).
  { intros db'. destruct (using_ok _ _ _ _ _) eqn:E; [|reflexivity].
    apply using_ok_signed_in in E. destruct E as [E|E]; congruence. }
  split; [|split].
  - unfold select_all, select_rows. intros H.
    apply filter_In in H as [_ H]. now rewrite Hid in H.
  - unfold select_by_id, select_rows. intros i H.
    apply filter_In in H as [_ H]. now rewrite Hid in H.
  - intros w before after E. unfold select_rows.
    rewrite rows_with_rows, E, !filter_app. simpl. rewrite Hid. simpl.
    f_equal; apply filter_ext; intros x; f_equal;
      apply eq_true_iff_eq; rewrite !using_ok_signed_in; reflexivity.
Qed.

Lemma private_recipe_hidden_witness :
  ~ In Sample.soup (select_all (signed_in Sample.bob) Sample.db recipes)
  /\ select_by_id (signed_in Sample.bob) Sample.db recipes 1
     = select_by_id (signed_in Sample.bob)
         (with_rows Sample.db recipes [Sample.cake]) recipes 1.
Proof.
  destruct (private_recipe_hidden Sample.bob Sample.db Sample.soup)
    as (L & _ & I).
  - reflexivity.
  - discriminate.
  - split; [exact L|]. exact (I _ [] [Sample.cake] eq_refl).
Defined.

(** C5 (as the store has it).  An ingredient insert passes the policies
    exactly when the caller owns the recipe the new row references, found
    by the sub-select on [recipes].  Without that it fails with an
    authorization failure, never an integrity failure, also when the
    recipe exists and is public.  With it the insert succeeds unless the
    new state breaks a declared constraint, and then the failure is an
    integrity failure. *)
Theorem ingredient_insert_needs_recipe_owner u db new :
  let db' := with_rows db recipe_ingredients
               (rows db recipe_ingredients ++ [new]) in
  let owner := owned_by db u recipe_ingredients new in
  (check_ok (signed_in u) db recipe_ingredients INSERT new = true <-> owner)
  /\ (~ owner ->
      insert_row (signed_in u) db recipe_ingredients new
      = Error AuthorizationFailure)
  /\ (owner -> consistent db' = true ->
      insert_row (signed_in u) db recipe_ingredients new = Ok db')
  /\ (owner -> consistent db' = false ->
      insert_row (signed_in u) db recipe_ingredients new
      = Error IntegrityFailure).
Proof.
  intros db' owner.
  assert (D : check_ok (signed_in u) db recipe_ingredients INSERT new = true
              <-> owner).
  { rewrite check_ok_signed_in. apply using_ok_signed_in. }
  split; [exact D|]. unfold insert_row, commit. fold db'.
  split; [|split].
  - intros N. destruct (check_ok _ _ _ _ _); [|reflexivity].
    exfalso. apply N, D. reflexivity.
  - intros O C. apply D in O. now rewrite O, C.
  - intros O C. apply D in O. now rewrite O, C.
Qed.

(** The owner of a recipe inserting an ingredient without a name: the
    insert does not succeed although the caller owns the parent. *)
Lemma owner_insert_can_fail :
  let nameless := row_of [(Col.id, VUuid 6); (Col.recipe_id, VUuid 2)] in
  consistent Sample.db = true
  /\ owned_by Sample.db Sample.alice recipe_ingredients nameless
  /\ insert_row (signed_in Sample.alice) Sample.db recipe_ingredients nameless
     = Error IntegrityFailure.
Proof.
  split; [reflexivity|split]; [|reflexivity].
  exists Sample.cake. repeat split; try discriminate. right. now left.
Qed.

Lemma ingredient_insert_needs_recipe_owner_witness :
  let sugar := row_of [(Col.id, VUuid 6); (Col.recipe_id, VUuid 2);
                       (Col.name, VText "sugar")] in
  Sample.cake Col.is_public = VBool true
  /\ insert_row (signed_in Sample.bob) Sample.db recipe_ingredients sugar
     = Error AuthorizationFailure
  /\ insert_row (signed_in Sample.alice) Sample.db recipe_ingredients sugar
     = Ok (with_rows Sample.db recipe_ingredients [Sample.flour; sugar]).
Proof.
  intros sugar. split; [reflexivity|split].
  - apply (ingredient_insert_needs_recipe_owner Sample.bob Sample.db sugar).
    intros (p & [<-|[<-|[]]] & _ & O); discriminate.
  - apply (ingredient_insert_needs_recipe_owner Sample.alice Sample.db sugar).
    + exists Sample.cake. repeat split; try discriminate. right. now left.
    + reflexivity.
Defined.

(** C6.  A recipe insert whose [user_id] is not the caller's identity is
    rejected with an authorization failure and leaves the state as it
    was. *)
Theorem recipe_insert_for_another_rejected u db new :
  new Col.user_id <> VUuid u ->
  insert_row (signed_in u) db recipes new = Error AuthorizationFailure
  /\ state_after db (insert_row (signed_in u) db recipes new) = db.
Proof.
  intros O.
  assert (E : insert_row (signed_in u) db recipes new
              = Error AuthorizationFailure).
  { unfold insert_row.
    destruct (check_ok _ _ _ _ _) eqn:C; [|reflexivity].
    now apply check_ok_signed_in in C. }
  now rewrite E.
Qed.

Lemma recipe_insert_for_another_rejected_witness :
  insert_row (signed_in Sample.bob) Sample.db recipes
    (Sample.recipe 3 Sample.alice "Stew" VNull true)
  = Error AuthorizationFailure.
Proof.
  apply (recipe_insert_for_another_rejected Sample.bob Sample.db
           (Sample.recipe 3 Sample.alice "Stew" VNull true)).
  discriminate.
Defined.

(** An update that names no row the policies show changes no table. *)
Lemma update_nothing s db t w set :
  (forall r, using_ok s db t UPDATE r = false) ->
  forall t', rows (state_after db (update_rows s db t w set)) t' = rows db t'.
Proof.
  intros H t'. unfold update_rows.
  destruct (forallb _ _); [|reflexivity].
  unfold commit. destruct (consistent _); [|reflexivity].
  unfold state_after, with_rows. cbn [rows].
  destruct (table_eqb t' t) eqn:E; [|reflexivity].
  assert (t' = t) as -> by (destruct t', t; discriminate || reflexivity).
  rewrite <- (map_id (rows db t)) at 2. apply map_ext.
  intros r. now rewrite H.
Qed.

(** C8.  Whoever is signed in reads every tag, and writes none: an insert
    is refused as unauthorized, an update and a delete find no row to
    act on. *)
Theorem tags_read_only sub db r w set :
  let s := mk_session authenticated sub in
  using_ok s db tags SELECT r = true
  /\ select_all s db tags = rows db tags
  /\ check_ok s db tags INSERT r = false
  /\ insert_row s db tags r = Error AuthorizationFailure
  /\ using_ok s db tags UPDATE r = false
  /\ check_ok s db tags UPDATE r = false
  /\ using_ok s db tags DELETE r = false
  /\ rows (state_after db (update_rows s db tags w set)) tags = rows db tags
  /\ rows (state_after db (delete_rows s db tags w)) tags = rows db tags.
Proof.
  intros s.
  assert (U : forall c x, using_ok s db tags c x
                          = match c with SELECT => true | _ => false end).
  { intros c x. unfold using_ok. subst s. rewrite using_authenticated.
    now destruct c. }
  assert (C : forall c x, check_ok s db tags c x
                          = match c with SELECT => true | _ => false end).
  { intros c x. unfold check_ok. subst s.
    rewrite check_authenticated, using_authenticated. now destruct c. }
  split; [apply U|]. split.
  { unfold select_all, select_rows. apply filter_all. intros x _.
    now rewrite U. }
  split; [apply C|]. split.
  { unfold insert_row. now rewrite C. }
  split; [apply U|]. split; [apply C|]. split; [apply U|]. split.
  - apply update_nothing. intros x. apply U.
  - apply delete_nothing. intros x. apply U.
Qed.

(** C10.  The update policies of [recipes] and [profiles] have a [USING]
    expression only, and the store checks the new row against it: every
    row an update writes still carries the caller's identity in
    [user_id], respectively [id]. *)
Theorem update_keeps_owner u db :
  (forall new, check_ok (signed_in u) db recipes UPDATE new = true ->
               new Col.user_id = VUuid u)
  /\ (forall new, check_ok (signed_in u) db profiles UPDATE new = true ->
                  new Col.id = VUuid u)
  /\ (forall t w set db' old,
        t = recipes \/ t = profiles ->
        update_rows (signed_in u) db t w set = Ok db' ->
        In old (rows db t) ->
        using_ok (signed_in u) db t UPDATE old = true ->
        is_true (w old) = true ->
        In (set old) (rows db' t) /\ owned_by db' u t (set old)).
Proof.
  split; [|split].
  - intros new H. now apply check_ok_signed_in, using_ok_signed_in in H.
  - intros new H. now apply check_ok_signed_in, using_ok_signed_in in H.
  - intros t w set db' old Ht H Hold Hu Hw. unfold update_rows in H.
    destruct (forallb _ _) eqn:F; [|discriminate H].
    unfold commit in H. destruct (consistent _); [|discriminate H].
    injection H as <-. rewrite rows_with_rows. split.
    + apply in_map_iff. exists old. now rewrite Hu, Hw.
    + rewrite forallb_forall in F.
      assert (C : check_ok (signed_in u) db t UPDATE (set old) = true).
      { apply F, filter_In. now rewrite Hu, Hw. }
      apply check_ok_signed_in in C.
      destruct Ht; subst t; now apply using_ok_signed_in in C.
Qed.

Lemma update_keeps_owner_witness :
  let rename := fun r => set_col r Col.title (VText "Broth") in
  let by_id := fun r => sql_eq (r Col.id) (VUuid 1) in
  let db' := state_after Sample.db
               (update_rows (signed_in Sample.alice) Sample.db recipes
                  by_id rename) in
  In (rename Sample.soup) (rows db' recipes)
  /\ owned_by db' Sample.alice recipes (rename Sample.soup).
Proof.
  intros rename by_id db'.
  destruct (update_keeps_owner Sample.alice Sample.db) as (_ & _ & H).
  apply (H recipes by_id rename db' Sample.soup).
  - now left.
  - vm_compute. reflexivity.
  - now left.
  - vm_compute. reflexivity.
  - vm_compute. reflexivity.
Defined.

(* ================================================================== *)
(** * Deletes, cascades and references *)

(** C7.  Whatever state a delete on [meal_plans] leaves behind, a meal
    plan that is gone from it has taken all its items with it: no row of
    [meal_plan_items] references its id.  The statement either fails and
    changes nothing, or removes plan and items together. *)
Theorem meal_plan_delete_takes_items s db w :
  let db' := state_after db (delete_rows s db meal_plans w) in
  forall p, In p (rows db meal_plans) -> ~ In p (rows db' meal_plans) ->
  forall it, In it (rows db' meal_plan_items) ->
             ~ refers_to it Col.meal_plan_id p.
Proof.
  intros db' p Hp Gone it Hit R. subst db'.
  unfold delete_rows, delete_where, commit in *.
  destruct (consistent _); [|now apply Gone].
  unfold state_after in *. cbn [rows] in *.
  set (d := fun t' r => table_eqb t' meal_plans
                        && (using_ok s db meal_plans DELETE r
                            && is_true (w r))) in *.
  assert (Dp : d meal_plans p = true).
  { destruct (cascade nesting_bound db d meal_plans p) eqn:E.
    - now rewrite cascade_root in E.
    - exfalso. apply Gone, filter_In. now rewrite E. }
  apply filter_In in Hit as [Hit Kept].
  change nesting_bound with (S 8) in Kept.
  now rewrite (cascade_takes_items 8 db d p it Hp Dp R) in Kept.
Qed.

Lemma meal_plan_delete_takes_items_witness :
  let by_id := fun r => sql_eq (r Col.id) (VUuid 7) in
  let db' := state_after Sample.db
               (delete_rows (signed_in Sample.alice) Sample.db meal_plans
                  by_id) in
  List.length (rows Sample.db meal_plan_items) = 2%nat
  /\ rows db' meal_plans = []
  /\ forall it, In it (rows db' meal_plan_items) ->
                ~ refers_to it Col.meal_plan_id Sample.week.
Proof.
  intros by_id db'. split; [reflexivity|]. split; [reflexivity|].
  apply (meal_plan_delete_takes_items (signed_in Sample.alice) Sample.db
           by_id Sample.week).
  - now left.
  - intros H. vm_compute in H. exact H.
Defined.

(** C2 (as the store has it).  In a state that satisfies the constraints,
    a delete that names a recipe some meal plan item references, or a meal
    plan some shopping list references, fails with an integrity failure,
    whoever runs it, and so leaves every row in place: the two foreign
    keys have no [ON DELETE] action.  Five foreign keys cascade: the four
    from a child to its recipe, meal plan or shopping list, and the one
    from [recipe_tags] to [tags]. *)
Theorem referenced_rows_block_delete db :
  consistent db = true ->
  (forall hit p it,
     In p (rows db recipes) -> hit p = true ->
     In it (rows db meal_plan_items) -> refers_to it Col.recipe_id p ->
     delete_where db recipes hit = Error IntegrityFailure)
  /\ (forall hit p l,
        In p (rows db meal_plans) -> hit p = true ->
        In l (rows db shopping_lists) -> refers_to l Col.meal_plan_id p ->
        delete_where db meal_plans hit = Error IntegrityFailure)
  /\ map (fun fk => (fk_child fk, fk_col fk, fk_parent fk)) cascades
     = [(recipe_ingredients, Col.recipe_id, Public recipes);
        (recipe_tags, Col.recipe_id, Public recipes);
        (recipe_tags, Col.tag_id, Public tags);
        (meal_plan_items, Col.meal_plan_id, Public meal_plans);
        (shopping_list_items, Col.shopping_list_id, Public shopping_lists)].
Proof.
  intros C. split; [|split]; [| |reflexivity].
  - intros hit p it Hp Hh Hit [E Hn]. unfold delete_where.
    set (d := fun t' r => table_eqb t' recipes && hit r).
    apply (dangling_refused _
             (references meal_plan_items Col.recipe_id (Public recipes)
                NO_ACTION) it); cbn [fk_child fk_col fk_parent rows].
    + simpl. tauto.
    + apply filter_In. split; [exact Hit|].
      now rewrite cascade_keeps_items.
    + congruence.
    + intros q t [= <-] Hq Eq. apply filter_In in Hq as [Hq Kept].
      assert (q = p) as ->.
      { apply (distinct_inj (key_of recipes) (rows db recipes));
          [now apply consistent_keys | exact Hq | exact Hp |].
        unfold key_of. simpl. congruence. }
      rewrite cascade_root in Kept by reflexivity.
      unfold d in Kept. simpl in Kept. now rewrite Hh in Kept.
    + discriminate.
  - intros hit p l Hp Hh Hl [E Hn]. unfold delete_where.
    set (d := fun t' r => table_eqb t' meal_plans && hit r).
    apply (dangling_refused _
             (references shopping_lists Col.meal_plan_id (Public meal_plans)
                NO_ACTION) l); cbn [fk_child fk_col fk_parent rows].
    + simpl. tauto.
    + apply filter_In. split; [exact Hl|].
      now rewrite cascade_root.
    + congruence.
    + intros q t [= <-] Hq Eq. apply filter_In in Hq as [Hq Kept].
      assert (q = p) as ->.
      { apply (distinct_inj (key_of meal_plans) (rows db meal_plans));
          [now apply consistent_keys | exact Hq | exact Hp |].
        unfold key_of. simpl. congruence. }
      rewrite cascade_root in Kept by reflexivity.
      unfold d in Kept. simpl in Kept. now rewrite Hh in Kept.
    + discriminate.
Qed.

(** On the sample state with a shopping list, the owner's delete of the
    referenced meal plan and a delete of the referenced recipe both fail:
    neither "succeeds independently", and the cascades are five, not
    four. *)
Lemma referenced_delete_is_refused :
  consistent Sample.db_with_list = true
  /\ refers_to (Sample.item 8 7 1) Col.recipe_id Sample.soup
  /\ refers_to Sample.groceries Col.meal_plan_id Sample.week
  /\ delete_where Sample.db_with_list recipes
       (fun r => value_eqb (r Col.id) (VUuid 1))
     = Error IntegrityFailure
  /\ delete_rows (signed_in Sample.alice) Sample.db_with_list meal_plans
       (fun r => sql_eq (r Col.id) (VUuid 7))
     = Error IntegrityFailure
  /\ List.length cascades = 5%nat.
Proof.
  repeat split; try reflexivity; discriminate.
Qed.

Lemma referenced_rows_block_delete_witness :
  delete_rows (signed_in Sample.alice) Sample.db_with_list meal_plans
    (fun r => sql_eq (r Col.id) (VUuid 7))
  = Error IntegrityFailure.
Proof.
  destruct (referenced_rows_block_delete Sample.db_with_list eq_refl)
    as (_ & H & _).
  apply (H _ Sample.week Sample.groceries).
  - now left.
  - reflexivity.
  - now left.
  - split; [reflexivity|discriminate].
Defined.

(* ================================================================== *)
(** * The search of the recipe listing *)

(** Where every recipe has a title and a description, the filter shows
    the recipes whose title or description contains the query, letter
    case aside. *)
Lemma filter_agrees_with_search recipes q :
  (forall r, In r recipes ->
             exists t d, r Col.title = VText t
                         /\ r Col.description = VText d) ->
  RecipeList.filteredRecipes recipes q
  = RecipeList.Returns (search_spec recipes q).
Proof.
  induction recipes as [|r rest IH]; intros H; [reflexivity|].
  destruct (H r (or_introl eq_refl)) as (t & d & Ht & Hd).
  simpl. rewrite IH by (intros x Hx; apply H; now right).
  unfold RecipeList.matches, text_contains. rewrite Ht, Hd. simpl.
  now destruct (RecipeList.includes (RecipeList.lower t) _).
Qed.

(** C9.  The sample state satisfies every constraint of the schema, and
    Alice's listing fetches her soup, stored without a description.  With
    the query "cake" the filter reaches [recipe.description.toLowerCase()]
    on that row and throws instead of showing the carrot cake. *)
Theorem filter_throws_on_missing_description :
  consistent Sample.db = true
  /\ RecipeList.fetchRecipes (signed_in Sample.alice) Sample.db
     = [Sample.soup; Sample.cake]
  /\ Sample.soup Col.description = VNull
  /\ RecipeList.filteredRecipes
       (RecipeList.fetchRecipes (signed_in Sample.alice) Sample.db) "cake"
     = RecipeList.TypeError
  /\ search_spec [Sample.soup; Sample.cake] "cake" = [Sample.cake].
Proof. repeat split. Qed.

(* ================================================================== *)
(** * More on the policies *)

Lemma filter_none {A} (f : A -> bool) (l : list A) :
  (forall x, f x = false) -> filter f l = [].
Proof.
  intros H. induction l as [|a l IH]; [reflexivity|]. simpl.
  now rewrite H.
Qed.

Lemma using_ok_false_iff u db t c r :
  using_ok (signed_in u) db t c r = false
  <-> ~ (using_ok (signed_in u) db t c r = true).
Proof. destruct (using_ok _ _ _ _ _); split; congruence. Qed.

(** X1.  The two policies on [profiles]: a signed-in user selects their
    own profile row and no other, and cannot insert a profile, not even
    one with their own id: no policy covers INSERT. *)
Theorem profiles_own_only u db :
  (forall r, In r (select_all (signed_in u) db profiles)
             <-> In r (rows db profiles) /\ r Col.id = VUuid u)
  /\ (forall new, insert_row (signed_in u) db profiles new
                  = Error AuthorizationFailure).
Proof.
  split.
  - intros r. unfold select_all, select_rows.
    rewrite filter_In, andb_true_r, using_ok_signed_in. reflexivity.
  - intros new. unfold insert_row.
    destruct (check_ok _ _ _ _ _) eqn:C; [|reflexivity].
    now apply check_ok_signed_in, using_ok_signed_in in C.
Qed.

(** X2.  Every policy is declared [TO authenticated]: a request with the
    role [anon] selects nothing from any table, has every insert refused,
    and its updates and deletes change no row. *)
Theorem anon_sees_nothing sub db t :
  let s := mk_session anon sub in
  select_all s db t = []
  /\ (forall new, insert_row s db t new = Error AuthorizationFailure)
  /\ (forall w set t',
        rows (state_after db (update_rows s db t w set)) t' = rows db t')
  /\ (forall w t',
        rows (state_after db (delete_rows s db t w)) t' = rows db t').
Proof.
  intros s.
  assert (U : forall c r, using_ok s db t c r = false).
  { intros c r. apply anon_denied. }
  assert (C : forall c r, check_ok s db t c r = false).
  { intros c r. apply anon_denied. }
  split; [|split; [|split]].
  - apply filter_none. intros r. now rewrite U.
  - intros new. unfold insert_row. now rewrite C.
  - intros w set. apply update_nothing. intros r. apply U.
  - intros w. apply delete_nothing. intros r. apply U.
Qed.

(** X3.  Meal plans, shopping lists and their items are private: for
    each of the four tables and every command, the policies show a row to
    a signed-in user exactly when the user owns it (for an item, owns the
    plan or list it belongs to), so a select returns the caller's rows and
    nothing else. *)
Theorem private_tables_owner_only u db t r :
  t = meal_plans \/ t = meal_plan_items
  \/ t = shopping_lists \/ t = shopping_list_items ->
  (forall c, using_ok (signed_in u) db t c r = true <-> owned_by db u t r)
  /\ (In r (select_all (signed_in u) db t)
      <-> In r (rows db t) /\ owned_by db u t r).
Proof.
  intros Ht.
  assert (U : forall c, using_ok (signed_in u) db t c r = true
                        <-> owned_by db u t r).
  { intros c. rewrite using_ok_signed_in.
    destruct Ht as [-> | [-> | [-> | ->]]]; destruct c; reflexivity. }
  split; [exact U|].
  unfold select_all, select_rows. now rewrite filter_In, andb_true_r, U.
Qed.

Lemma private_tables_owner_only_witness :
  In (Sample.item 8 7 1)
    (select_all (signed_in Sample.alice) Sample.db meal_plan_items)
  /\ ~ owned_by Sample.db Sample.bob meal_plan_items (Sample.item 8 7 1).
Proof.
  split.
  - apply (private_tables_owner_only Sample.alice Sample.db meal_plan_items).
    + right. now left.
    + split; [now left|]. exists Sample.week.
      repeat split; try discriminate. now left.
  - intros O.
    destruct (private_tables_owner_only Sample.bob Sample.db meal_plan_items
                (Sample.item 8 7 1)) as [U _]; [right; now left|].
    apply (U SELECT) in O. discriminate O.
Defined.

(** X4.  What a signed-in user may write they may read: a row that
    passes the policies of any command on any table, as an existing or as
    a new row, also passes the SELECT policies of that table.  So the read
    access an [UPDATE ... WHERE], a [DELETE ... WHERE] or a [RETURNING]
    needs on top never takes anything away. *)
Theorem write_implies_read u db t c r :
  permitted (signed_in u) db t c r ->
  using_ok (signed_in u) db t SELECT r = true.
Proof.
  intros H.
  assert (U : using_ok (signed_in u) db t c r = true
              \/ (t = recipes /\ r Col.user_id = VUuid u)).
  { unfold permitted in H. destruct c; auto.
    - apply check_ok_signed_in in H. destruct t; auto.
    - destruct H as [H|H]; auto.
      apply check_ok_signed_in in H. destruct t; auto. }
  apply using_ok_signed_in.
  destruct U as [U|[-> O]]; [|now right].
  apply using_ok_signed_in in U.
  destruct t, c; simpl in *; try contradiction; auto.
  all: destruct U as (p & Hp & R & O); exists p; auto.
Qed.

Lemma write_implies_read_witness :
  using_ok (signed_in Sample.alice) Sample.db recipes SELECT Sample.soup
  = true.
Proof.
  apply (write_implies_read Sample.alice Sample.db recipes UPDATE).
  left. reflexivity.
Defined.

(** X5.  No policy covers DELETE on [recipes] or [profiles]: a delete by
    a signed-in user, the owner included, removes no recipe and no
    profile, and changes no other table either. *)
Theorem no_delete_of_recipes_and_profiles u db t w :
  t = recipes \/ t = profiles ->
  forall t', rows (state_after db (delete_rows (signed_in u) db t w)) t'
             = rows db t'.
Proof.
  intros Ht. apply delete_nothing. intros r.
  apply using_ok_false_iff. rewrite using_ok_signed_in.
  now destruct Ht; subst t.
Qed.

Lemma no_delete_of_recipes_and_profiles_witness :
  Sample.soup Col.user_id = VUuid Sample.alice
  /\ rows (state_after Sample.db
             (delete_rows (signed_in Sample.alice) Sample.db recipes
                (fun r => sql_eq (r Col.id) (VUuid 1)))) recipes
     = rows Sample.db recipes.
Proof.
  split; [reflexivity|].
  apply (no_delete_of_recipes_and_profiles Sample.alice Sample.db recipes).
  now left.
Defined.

(** X6.  A new row, inserted or written by an update, passes the
    policies exactly when the caller owns it, on every table but two:
    nobody inserts into [profiles], and nobody writes [tags].  So no
    signed-in user can create or leave behind a row owned by somebody
    else. *)
Theorem writes_require_ownership u db t c new :
  c = INSERT \/ c = UPDATE ->
  (check_ok (signed_in u) db t c new = true
   <-> owned_by db u t new /\ t <> tags /\ (t = profiles -> c = UPDATE)).
Proof.
  intros Hc. rewrite check_ok_signed_in.
  destruct Hc; subst c; destruct t; rewrite ?using_ok_signed_in;
    simpl; split; try tauto; try discriminate;
    try (now intros (_ & _ & H); specialize (H eq_refl));
    try (now intros (_ & H & _));
    try (intros H; repeat split; (exact H || discriminate)).
Qed.

Lemma writes_require_ownership_witness :
  check_ok (signed_in Sample.bob) Sample.db meal_plan_items INSERT
    (Sample.item 12 7 2) = false
  /\ check_ok (signed_in Sample.alice) Sample.db meal_plan_items INSERT
       (Sample.item 12 7 2) = true.
Proof.
  split; [reflexivity|].
  apply (writes_require_ownership Sample.alice Sample.db meal_plan_items
           INSERT); [now left|].
  repeat split; try discriminate.
  exists Sample.week. repeat split; try discriminate. now left.
Defined.

(* ================================================================== *)
(** * More on deletes *)

Lemma cascade_parent_is_root fk t :
  In fk cascades -> fk_parent fk = Public t -> cascading_from t = [].
Proof.
  intros H E. unfold cascades in H. simpl in H.
  repeat (destruct H as [<-|H]; [injection E as <-; reflexivity|]).
  contradiction.
Qed.

Lemma cascade_step_takes db d fk t p c :
  In fk cascades -> fk_parent fk = Public t ->
  In p (rows db t) -> d t p = true -> refers_to c (fk_col fk) p ->
  cascade_step db d (fk_child fk) c = true.
Proof.
  intros Hfk Ht Hp Hd [E Hn]. unfold cascade_step.
  destruct (d (fk_child fk) c); [reflexivity|].
  apply filter_In in Hfk as [Hfk Hc].
  apply existsb_exists. exists fk. split; [exact Hfk|].
  rewrite table_eqb_refl, Hc, Ht. simpl.
  apply existsb_exists. exists p. split; [exact Hp|].
  rewrite Hd. apply sql_eq_true. split; congruence.
Qed.

(** X7.  The five cascading foreign keys at work: whatever state a
    delete leaves behind, whoever runs it, a recipe, tag, meal plan or
    shopping list that is gone has taken along every row that referenced
    it through a cascading foreign key: the ingredients and tag links of
    the recipe, the recipe links of the tag, the items of the plan or
    list. *)
Theorem delete_takes_children db t hit :
  let db' := state_after db (delete_where db t hit) in
  forall fk p c,
    In fk cascades -> fk_parent fk = Public t ->
    In p (rows db t) -> ~ In p (rows db' t) ->
    In c (rows db' (fk_child fk)) -> ~ refers_to c (fk_col fk) p.
Proof.
  intros db' fk p c Hfk Ht Hp Gone Hc R. subst db'.
  unfold delete_where, commit in *.
  destruct (consistent _); [|now apply Gone].
  unfold state_after in *. cbn [rows] in *.
  set (d := fun t' r => table_eqb t' t && hit r) in *.
  assert (Dp : d t p = true).
  { destruct (cascade nesting_bound db d t p) eqn:E.
    - now rewrite (cascade_root _ _ _ _ _ (cascade_parent_is_root _ _ Hfk Ht))
        in E.
    - exfalso. apply Gone, filter_In. now rewrite E. }
  apply filter_In in Hc as [Hc Kept].
  change (cascade nesting_bound db d (fk_child fk) c)
    with (cascade 8 db (cascade_step db d) (fk_child fk) c) in Kept.
  rewrite cascade_incr in Kept; [discriminate Kept|].
  now apply (cascade_step_takes db d fk t p c).
Qed.

Lemma delete_takes_children_witness :
  let db' := state_after Sample.db
               (delete_where Sample.db tags (fun _ => true)) in
  rows db' tags = []
  /\ forall c, In c (rows db' recipe_tags) ->
               ~ refers_to c Col.tag_id Sample.vegan.
Proof.
  intros db'. split; [reflexivity|]. intros c.
  apply (delete_takes_children Sample.db tags (fun _ => true)
           (references recipe_tags Col.tag_id (Public tags) CASCADE)
           Sample.vegan c).
  - right. right. now left.
  - reflexivity.
  - now left.
  - intros H. vm_compute in H. exact H.
Defined.

(* ================================================================== *)
(** * Running the migration *)

Section MigrationFacts.
Import Migration.

Lemma run_app a b c :
  run (a ++ b) c
  = match run a c with
    | inl c' => run b c'
    | inr e => inr e
    end.
Proof.
  revert c. induction a as [|st a IH]; intros c; [reflexivity|].
  simpl. destruct (exec st c); [apply IH|reflexivity].
Qed.

Lemma filter_filter {A} (f g : A -> bool) (l : list A) :
  filter f (filter g l) = filter (fun x => g x && f x) l.
Proof.
  induction l as [|a l IH]; [reflexivity|]. simpl.
  destruct (g a); simpl; [destruct (f a)|]; now rewrite IH.
Qed.

Lemma find_none {A} (f : A -> bool) (l : list A) :
  (forall x, In x l -> f x = false) -> find f l = None.
Proof.
  induction l as [|a l IH]; intros H; [reflexivity|]. simpl.
  rewrite (H a (or_introl eq_refl)). apply IH. intros x Hx.
  apply H. now right.
Qed.

Lemma table_eqb_eq a b : table_eqb a b = true <-> a = b.
Proof. destruct a, b; simpl; split; congruence. Qed.

Lemma has_table_iff t ts : existsb (table_eqb t) ts = true <-> In t ts.
Proof.
  rewrite existsb_exists. split.
  - intros (x & Hx & E). apply table_eqb_eq in E. now subst.
  - intros H. exists t. split; [exact H|apply table_eqb_refl].
Qed.

Lemma is_policy_sym p q :
  is_policy (pol_name p) (pol_table p) q
  = is_policy (pol_name q) (pol_table q) p.
Proof.
  unfold is_policy. rewrite (String.eqb_sym (pol_name q)). f_equal.
  destruct (pol_table p), (pol_table q); reflexivity.
Qed.

(** The drops remove the policies they name and nothing else, and never
    fail. *)
Lemma run_drops ds c :
  Forall (fun st => match st with
                    | DROP_POLICY_IF_EXISTS _ _ => True
                    | _ => False
                    end) ds ->
  run ds c
  = inl (mk_catalog (cat_tables c) (cat_rls c)
           (filter (fun p => negb (dropped_by ds p)) (cat_policies c))).
Proof.
  intros H. revert c. induction H as [|st ds Hst _ IH]; intros c.
  - simpl. destruct c as [ts rs ps]. simpl. f_equal. f_equal.
    symmetry. now apply filter_all.
  - destruct st; try contradiction. simpl. rewrite IH. simpl.
    rewrite filter_filter. do 2 f_equal. apply filter_ext. intros p.
    now rewrite negb_orb.
Qed.

(** Tables created in an order that puts a table after the tables it
    references are created without an error; the existing ones are
    skipped. *)
Lemma run_create_tables l : forall seen c,
  in_order seen l = true ->
  (forall p, In p seen -> exists_table c p = true) ->
  exists ts,
    run (map CREATE_TABLE_IF_NOT_EXISTS l) c
    = inl (mk_catalog ts (cat_rls c) (cat_policies c))
    /\ (forall t, exists_table c t = true -> In t ts)
    /\ (forall t, In t l -> In t ts)
    /\ (forallb (exists_table c) l = true -> ts = cat_tables c).
Proof.
  induction l as [|t l IH]; intros seen c Ord Seen.
  - exists (cat_tables c). destruct c as [ts rs ps]. simpl.
    repeat split; auto.
    + intros t H. now apply has_table_iff.
    + contradiction.
  - simpl in Ord. apply andb_true_iff in Ord as [Refs Ord]. simpl.
    destruct (exists_table c t) eqn:E.
    + destruct (IH (t :: seen) c Ord) as (ts & R & Old & New & Same).
      { intros p [<-|Hp]; auto. }
      exists ts. split; [exact R|]. split; [exact Old|]. split.
      * intros x [<-|Hx]; auto.
      * intros H. apply Same. cbn [forallb andb] in H. exact H.
    + rewrite find_none.
      2:{ intros p Hp. rewrite forallb_forall in Refs.
          apply negb_false_iff, Seen, has_table_iff, Refs, Hp. }
      set (c1 := mk_catalog (cat_tables c ++ [t]) (cat_rls c)
                   (cat_policies c)).
      assert (Grow : forall p, exists_table c p = true
                               -> exists_table c1 p = true).
      { intros p H. unfold exists_table in *. unfold c1. simpl.
        rewrite existsb_app. now rewrite H. }
      assert (Here : exists_table c1 t = true).
      { unfold exists_table, c1. simpl. rewrite existsb_app. simpl.
        rewrite table_eqb_refl. apply orb_true_iff. right. reflexivity. }
      destruct (IH (t :: seen) c1 Ord) as (ts & R & Old & New & _).
      { intros p [<-|Hp]; auto. }
      exists ts. split; [exact R|]. split; [auto|]. split.
      * intros x [<-|Hx]; auto.
      * intros H. cbn [forallb andb] in H. discriminate H.
Qed.

Lemma run_enable l : forall c,
  (forall t, In t l -> exists_table c t = true) ->
  exists rs,
    run (map ENABLE_ROW_LEVEL_SECURITY l) c
    = inl (mk_catalog (cat_tables c) rs (cat_policies c))
    /\ (forall t, In t (cat_rls c) -> In t rs)
    /\ (forall t, In t l -> In t rs)
    /\ (forallb (fun t => existsb (table_eqb t) (cat_rls c)) l = true ->
        rs = cat_rls c).
Proof.
  induction l as [|t l IH]; intros c Ex.
  - exists (cat_rls c). destruct c as [ts rs ps]. simpl.
    repeat split; auto. contradiction.
  - simpl. rewrite (Ex t (or_introl eq_refl)).
    set (c1 := mk_catalog _ _ _).
    destruct (IH c1) as (rs & R & Old & New & Same).
    { intros x Hx. apply Ex. now right. }
    assert (Keep : forall x, In x (cat_rls c) -> In x (cat_rls c1)).
    { intros x Hx. unfold c1. simpl.
      destruct (existsb _ _); [exact Hx|]. apply in_or_app. now left. }
    assert (Here : In t (cat_rls c1)).
    { unfold c1. simpl. destruct (existsb _ _) eqn:E.
      - now apply has_table_iff.
      - apply in_or_app. right. now left. }
    exists rs. split; [exact R|]. split; [auto|]. split.
    + intros x [<-|Hx]; auto.
    + intros H. simpl in H. apply andb_true_iff in H as [H1 H2].
      assert (E1 : cat_rls c1 = cat_rls c).
      { unfold c1. simpl. now rewrite H1. }
      rewrite <- E1. apply Same. now rewrite E1.
Qed.

Lemma run_create_policies ps : forall c,
  clash_free ps = true ->
  (forall p, In p ps -> exists_table c (pol_table p) = true) ->
  (forall p, In p ps ->
     existsb (is_policy (pol_name p) (pol_table p)) (cat_policies c)
     = false) ->
  run (map CREATE_POLICY ps) c
  = inl (mk_catalog (cat_tables c) (cat_rls c) (cat_policies c ++ ps)).
Proof.
  induction ps as [|p ps IH]; intros c Free Ex New.
  - destruct c as [ts rs qs]. simpl. now rewrite app_nil_r.
  - simpl in Free. apply andb_true_iff in Free as [Fp Free].
    apply negb_true_iff in Fp. simpl.
    rewrite (Ex p (or_introl eq_refl)), (New p (or_introl eq_refl)).
    rewrite IH; simpl; auto.
    + now rewrite <- app_assoc.
    + intros q Hq. apply Ex. now right.
    + intros q Hq. rewrite existsb_app, New by now right. simpl.
      rewrite orb_false_r, <- is_policy_sym.
      destruct (is_policy (pol_name p) (pol_table p) q) eqn:E;
        [|reflexivity].
      assert (T : existsb (is_policy (pol_name p) (pol_table p)) ps = true).
      { apply existsb_exists. now exists q. }
      now rewrite T in Fp.
Qed.

(** Every policy the script creates is named by one of its drops. *)
Lemma created_is_dropped p q :
  In p policies ->
  is_policy (pol_name p) (pol_table p) q = true ->
  dropped_by drops q = true.
Proof.
  intros Hp H. unfold dropped_by. apply existsb_exists.
  exists (DROP_POLICY_IF_EXISTS (pol_name p) (pol_table p)).
  split; [|exact H].
  simpl in Hp.
  repeat (destruct Hp as [<-|Hp];
          [simpl; repeat (first [left; reflexivity | right])|]).
  contradiction.
Qed.

(** The catalog the script leaves behind. *)
Lemma script_result c :
  exists ts rs,
    run script c
    = inl (mk_catalog ts rs
             (filter (fun p => negb (dropped_by drops p)) (cat_policies c)
              ++ policies))
    /\ (forall t, In t ts) /\ (forall t, In t rs)
    /\ ((forall t, In t (cat_tables c)) -> ts = cat_tables c)
    /\ ((forall t, In t (cat_rls c)) -> rs = cat_rls c).
Proof.
  unfold script, creates. rewrite run_app, run_drops.
  2:{ unfold drops. repeat constructor. }
  set (c1 := mk_catalog _ _ _).
  destruct (run_create_tables all_tables [] c1 eq_refl)
    as (ts & R2 & _ & All & Same); [contradiction|].
  rewrite run_app, R2. set (c2 := mk_catalog ts _ _).
  destruct (run_enable row_security_enabled c2) as (rs & R3 & _ & En & Same3).
  { intros t _. apply has_table_iff, All, in_all_tables. }
  rewrite run_app, R3. set (c3 := mk_catalog _ rs _).
  rewrite run_create_policies; [|reflexivity| |].
  - exists ts, rs. split; [reflexivity|]. split; [|split; [|split]].
    + intros t. apply All, in_all_tables.
    + intros t. apply En. destruct t; simpl; tauto.
    + intros H. apply Same. apply forallb_forall. intros t _.
      now apply has_table_iff, H.
    + intros H. apply Same3. apply forallb_forall. intros t _.
      now apply has_table_iff, H.
  - intros p _. apply has_table_iff, All, in_all_tables.
  - intros p Hp. apply existsb_none. intros q Hq.
    unfold c3, c2, c1 in Hq. cbn [cat_policies] in Hq.
    apply filter_In in Hq as [_ Hq]. apply negb_true_iff in Hq.
    destruct (is_policy (pol_name p) (pol_table p) q) eqn:E; [|reflexivity].
    now rewrite (created_is_dropped p q Hp E) in Hq.
Qed.

(** X8.  The migration runs through on every catalog, the empty one of a
    new project included: every drop is [IF EXISTS], every table is
    created [IF NOT EXISTS] and after the tables it references, and no
    policy is created under a name still in use on its table.  Afterwards
    the nine tables exist with row security enabled, and the policies are
    the fourteen of the script next to those the script does not name. *)
Theorem migration_succeeds c :
  exists c',
    run script c = inl c'
    /\ (forall t, In t (cat_tables c') /\ In t (cat_rls c'))
    /\ cat_policies c'
       = filter (fun p => negb (dropped_by drops p)) (cat_policies c)
         ++ policies.
Proof.
  destruct (script_result c) as (ts & rs & R & T & S & _).
  eexists. split; [exact R|]. simpl. split; [|reflexivity].
  intros t. split; [apply T|apply S].
Qed.

(** X9.  The migration can be applied again: run on the catalog it has
    produced, it succeeds and leaves that catalog as it is. *)
Theorem migration_is_idempotent c c' :
  run script c = inl c' -> run script c' = inl c'.
Proof.
  intros R. destruct (script_result c) as (ts & rs & R1 & T & S & _).
  assert (E : c' = mk_catalog ts rs
                     (filter (fun p => negb (dropped_by drops p))
                        (cat_policies c) ++ policies)) by congruence.
  clear R. subst c'.
  destruct (script_result (mk_catalog ts rs
              (filter (fun p => negb (dropped_by drops p)) (cat_policies c)
               ++ policies))) as (ts' & rs' & R2 & _ & _ & Et & Er).
  rewrite R2. cbn [cat_tables cat_rls cat_policies] in *.
  rewrite (Et T), (Er S). do 2 f_equal.
  rewrite filter_app, filter_filter.
  assert (N : filter (fun p => negb (dropped_by drops p)) policies = [])
    by (vm_compute; reflexivity).
  rewrite N, app_nil_r. f_equal.
  apply filter_ext. intros p. now destruct (dropped_by drops p).
Qed.

(** X10.  The drops are what makes that possible: the rest of the script,
    run on a catalog the migration has produced, stops at its first
    [CREATE POLICY] because the policy is already there. *)
Theorem rerun_without_drops_fails c c' :
  run script c = inl c' ->
  run creates c'
  = inr (duplicate_policy "Users can view their own profile" profiles).
Proof.
  intros R. destruct (script_result c) as (ts & rs & R1 & T & S & _).
  assert (E : c' = mk_catalog ts rs
                     (filter (fun p => negb (dropped_by drops p))
                        (cat_policies c) ++ policies)) by congruence.
  clear R. subst c'. unfold creates.
  set (c1 := mk_catalog ts rs _).
  destruct (run_create_tables all_tables [] c1 eq_refl)
    as (ts' & R2 & _ & _ & Same); [contradiction|].
  rewrite run_app, R2, Same.
  2:{ apply forallb_forall. intros t _. apply has_table_iff, T. }
  destruct (run_enable row_security_enabled c1) as (rs' & R3 & _ & _ & Same3).
  { intros t _. apply has_table_iff, T. }
  change (mk_catalog (cat_tables c1) (cat_rls c1) (cat_policies c1)) with c1.
  rewrite run_app, R3, Same3.
  2:{ apply forallb_forall. intros t _. apply has_table_iff, S. }
  change (mk_catalog (cat_tables c1) (cat_rls c1) (cat_policies c1)) with c1.
  simpl. unfold exists_table.
  assert (P : existsb (table_eqb profiles) (cat_tables c1) = true)
    by apply has_table_iff, T.
  rewrite P. unfold c1. simpl cat_policies. rewrite existsb_app. simpl.
  now rewrite orb_true_r.
Qed.

End MigrationFacts.

Lemma migration_is_idempotent_witness :
  let installed :=
    Migration.mk_catalog all_tables row_security_enabled policies in
  Migration.run Migration.script Migration.fresh = inl installed
  /\ Migration.run Migration.script installed = inl installed.
Proof.
  intros installed.
  assert (R : Migration.run Migration.script Migration.fresh = inl installed)
    by reflexivity.
  split; [exact R|].
  exact (migration_is_idempotent Migration.fresh installed R).
Defined.

Lemma rerun_without_drops_fails_witness :
  let installed :=
    Migration.mk_catalog all_tables row_security_enabled policies in
  Migration.run Migration.creates installed
  = inr (Migration.duplicate_policy "Users can view their own profile"
           profiles).
Proof.
  intros installed.
  apply (rerun_without_drops_fails Migration.fresh installed).
  reflexivity.
Defined.

(* ================================================================== *)
(** * More on the recipe listing *)

Lemma matches_outcome q r :
  RecipeList.matches q r
  = if throws_on q r then RecipeList.TypeError
    else RecipeList.Returns (text_contains (r Col.title) q
                             || text_contains (r Col.description) q).
Proof.
  unfold RecipeList.matches, throws_on, text_contains.
  destruct (r Col.title); try reflexivity. simpl.
  destruct (RecipeList.includes _ _); [reflexivity|]. simpl.
  now destruct (r Col.description).
Qed.

(** X11.  The outcome of the filter on every input: it throws exactly
    when some fetched row has no string for a title, or a title without
    the query and no string for a description; otherwise it returns the
    rows whose title or description contains the query, letter case
    aside, in the order they were fetched. *)
Theorem filter_outcome recipes q :
  RecipeList.filteredRecipes recipes q
  = if existsb (throws_on q) recipes then RecipeList.TypeError
    else RecipeList.Returns (search_spec recipes q).
Proof.
  induction recipes as [|r rest IH]; [reflexivity|].
  simpl. rewrite matches_outcome, IH.
  destruct (throws_on q r); [reflexivity|]. simpl.
  destruct (existsb (throws_on q) rest); [reflexivity|].
  now destruct (text_contains (r Col.title) q
                || text_contains (r Col.description) q).
Qed.

Lemma includes_empty s : RecipeList.includes s "" = true.
Proof. destruct s; reflexivity. Qed.

Lemma in_col_all (c : Col.t) : In c Col.all.
Proof. destruct c; simpl; tauto. Qed.

(** In a state that satisfies the constraints every recipe has a title. *)
Lemma consistent_recipe_title db r :
  consistent db = true -> In r (rows db recipes) ->
  exists t, r Col.title = VText t.
Proof.
  unfold consistent. intros H Hr. apply andb_true_iff in H as [H _].
  rewrite forallb_forall in H. specialize (H recipes (in_all_tables _)).
  unfold table_ok in H. apply andb_true_iff in H as [H _].
  apply andb_true_iff in H as [H _]. rewrite forallb_forall in H.
  specialize (H r Hr). unfold row_well_formed in H.
  rewrite forallb_forall in H. specialize (H Col.title (in_col_all _)).
  cbn in H. destruct (r Col.title); try discriminate H. eauto.
Qed.

(** X12.  With the search box empty the listing shows every recipe it
    fetched from a state that satisfies the constraints, those without a
    description included: the empty query is found in every title, so the
    description is never looked at.  The hint "Get started by creating a
    new recipe" then shows exactly when nothing was fetched. *)
Theorem empty_query_shows_all s db :
  consistent db = true ->
  let fetched := RecipeList.fetchRecipes s db in
  RecipeList.filteredRecipes fetched "" = RecipeList.Returns fetched
  /\ (RecipeList.empty_hint fetched ""
      = Some "Get started by creating a new recipe" <-> fetched = []).
Proof.
  intros C fetched.
  assert (T : forall r, In r fetched -> exists t, r Col.title = VText t).
  { intros r Hr. apply (consistent_recipe_title db r C).
    unfold fetched, RecipeList.fetchRecipes, select_all, select_rows in Hr.
    now apply filter_In in Hr. }
  split.
  - rewrite filter_outcome, existsb_none.
    + f_equal. unfold search_spec. apply filter_all. intros r Hr.
      destruct (T r Hr) as [t ->]. simpl. now rewrite includes_empty.
    + intros r Hr. unfold throws_on. destruct (T r Hr) as [t ->].
      simpl. now rewrite includes_empty.
  - destruct fetched; simpl; split; congruence.
Qed.

Lemma empty_query_shows_all_witness :
  Sample.soup Col.description = VNull
  /\ RecipeList.filteredRecipes
       (RecipeList.fetchRecipes (signed_in Sample.alice) Sample.db) ""
     = RecipeList.Returns [Sample.soup; Sample.cake].
Proof.
  split; [reflexivity|].
  apply (empty_query_shows_all (signed_in Sample.alice) Sample.db).
  reflexivity.
Defined.

(** X13.  The listing under the heading "My Recipes" asks for every row
    of [recipes], so what it fetches is what the policies show: the
    caller's own recipes and the public recipes of everybody else. *)
Theorem listing_has_own_and_public u db r :
  In r (RecipeList.fetchRecipes (signed_in u) db)
  <-> In r (rows db recipes)
      /\ (r Col.is_public = VBool true \/ r Col.user_id = VUuid u).
Proof.
  unfold RecipeList.fetchRecipes, select_all, select_rows.
  now rewrite filter_In, andb_true_r, using_ok_signed_in.
Qed.

(* ================================================================== *)
(** * The profile form *)

Section ProfileFacts.
Import UserProfile.

Lemma filter_map_commute {A} (f : A -> A) (sel : A -> bool) (l : list A) :
  (forall x, sel (f x) = sel x) ->
  filter sel (map f l) = map f (filter sel l).
Proof.
  intros H. induction l as [|a l IH]; [reflexivity|]. simpl.
  rewrite H. destruct (sel a); simpl; now rewrite IH.
Qed.

Lemma single_map {A B} (g : A -> B) (l : list A) :
  single (map g l)
  = match single l with
    | Some x => Some (g x)
    | None => None
    end.
Proof. destruct l as [|a [|b l]]; reflexivity. Qed.

Lemma selected_assign updates r :
  selected (assign updates r) = spread (selected r) updates.
Proof. reflexivity. Qed.

(** The policies on [profiles] look at the [id] of the row only. *)
Lemma using_ok_profiles u db c r :
  using_ok (signed_in u) db profiles c r
  = match c with
    | SELECT | UPDATE => value_eqb (r Col.id) (VUuid u)
    | _ => false
    end.
Proof.
  apply eq_true_iff_eq. rewrite using_ok_signed_in.
  destruct c; rewrite ?value_eqb_eq; split; congruence || contradiction.
Qed.

Lemma check_ok_profiles_update u db r :
  check_ok (signed_in u) db profiles UPDATE r
  = value_eqb (r Col.id) (VUuid u).
Proof.
  apply eq_true_iff_eq. rewrite check_ok_signed_in. cbv iota.
  now rewrite using_ok_profiles.
Qed.

(** What the update of [updateProfile] does to the store when it goes
    through. *)
Lemma updateProfile_store u db updates db' :
  update_rows (signed_in u) db profiles
    (fun r => sql_eq (r Col.id) (VUuid u)) (assign updates) = Ok db' ->
  db' = with_rows db profiles
          (map (fun r => if value_eqb (r Col.id) (VUuid u)
                            && is_true (sql_eq (r Col.id) (VUuid u))
                         then assign updates r else r)
             (rows db profiles)).
Proof.
  unfold update_rows. destruct (forallb _ _); [|discriminate].
  unfold commit. destruct (consistent _); [|discriminate].
  intros [= <-]. f_equal. apply map_ext. intros r.
  now rewrite using_ok_profiles.
Qed.

(** X14.  The profile form mirrors the store.  After [getProfile] the
    local profile is what the store hands out for the user, and every
    [updateProfile] keeps it so: when the update goes through, the fields
    spread into the local profile are the fields written to the row;
    when it fails, neither changes. *)
Theorem profile_state_mirrors_store u db :
  mirrors (signed_in u) db u (getProfile (signed_in u) db u initial)
  /\ forall updates st,
       mirrors (signed_in u) db u st ->
       let out := updateProfile (signed_in u) db u updates st in
       mirrors (signed_in u) (fst out) u (snd out).
Proof.
  split.
  - unfold mirrors, getProfile. now destruct (load _ _ _).
  - intros updates st M out. subst out. unfold updateProfile.
    destruct (update_rows _ _ _ _ _) as [db'|e] eqn:E; [|exact M].
    apply updateProfile_store in E. subst db'.
    unfold mirrors, load, select_by_id, select_rows in *. simpl fst.
    simpl snd. simpl profile. rewrite M, rows_with_rows.
    set (own := fun r : row => value_eqb (r Col.id) (VUuid u)
                               && is_true (sql_eq (r Col.id) (VUuid u))).
    rewrite (filter_ext _ own) by (intros r; now rewrite using_ok_profiles).
    rewrite (filter_ext (fun r => using_ok _ _ _ _ r && _) own)
      by (intros r; now rewrite using_ok_profiles).
    rewrite (filter_map_commute _ own).
    2:{ intros r. unfold own.
        destruct (value_eqb (r Col.id) (VUuid u)
                  && is_true (sql_eq (r Col.id) (VUuid u))) eqn:E;
          exact E. }
    rewrite (map_ext_in _ (assign updates)).
    2:{ intros r Hr. apply filter_In in Hr as [_ Hr].
        unfold own in Hr. now rewrite Hr. }
    rewrite (map_map (assign updates) selected).
    change (fun x => selected (assign updates x))
      with (fun x => (fun p => spread p updates) (selected x)).
    rewrite <- (map_map selected (fun p => spread p updates)).
    now rewrite (single_map (fun p => spread p updates)).
Qed.

Lemma profile_state_mirrors_store_witness :
  let s := signed_in Sample.alice in
  let rename := mk_Partial (Some (VText "alice")) None None None in
  let out := updateProfile s Sample.db Sample.alice rename
               (getProfile s Sample.db Sample.alice initial) in
  load s (fst out) Sample.alice
  = Some (mk_Profile (VText "alice") VNull VNull VNull)
  /\ mirrors s (fst out) Sample.alice (snd out).
Proof.
  intros s rename out. split; [reflexivity|].
  destruct (profile_state_mirrors_store Sample.alice Sample.db) as [G U].
  exact (U rename _ G).
Defined.

Lemma filter_nil_in {A} (f : A -> bool) (l : list A) :
  (forall x, In x l -> f x = false) -> filter f l = [].
Proof.
  induction l as [|a l IH]; intros H; [reflexivity|]. simpl.
  rewrite (H a (or_introl eq_refl)). apply IH. intros x Hx.
  apply H. now right.
Qed.

(** Among rows with distinct keys, a filter that lets through only rows
    with the key of [p] lets through [p] alone. *)
Lemma filter_singleton {A} (key : A -> list value) (f : A -> bool)
  (l : list A) (p : A) :
  distinct (map key l) = true -> In p l -> f p = true ->
  (forall x, In x l -> f x = true -> key x = key p) ->
  filter f l = [p].
Proof.
  intros D Hp Fp K.
  assert (Only : forall x, In x l -> f x = true -> x = p).
  { intros x Hx Fx. apply (distinct_inj key l); auto. }
  clear K. induction l as [|a l IH]; [contradiction|].
  simpl in D. apply andb_true_iff in D as [Fresh D].
  apply negb_true_iff in Fresh. simpl.
  destruct Hp as [->|Hp].
  - rewrite Fp. f_equal. apply filter_nil_in. intros x Hx.
    destruct (f x) eqn:Fx; [|reflexivity].
    assert (x = p) as -> by (apply Only; [now right|exact Fx]).
    assert (T : existsb (key_eqb (key p)) (map key l) = true).
    { apply existsb_exists. exists (key p). split.
      - now apply in_map.
      - apply key_eqb_refl. }
    now rewrite T in Fresh.
  - destruct (f a) eqn:Fa.
    + assert (a = p) as -> by (apply Only; [now left|exact Fa]).
      assert (T : existsb (key_eqb (key p)) (map key l) = true).
      { apply existsb_exists. exists (key p). split.
        - now apply in_map.
        - apply key_eqb_refl. }
      now rewrite T in Fresh.
    + apply IH; auto. intros x Hx. apply Only. now right.
Qed.

(** X15.  What [getProfile] can load.  Asking for another user's id
    gives an error like a missing row does; asking for one's own id gives
    the columns of one's profile row when the state satisfies the
    constraints, and an error when there is no such row. *)
Theorem load_only_own_profile u db :
  (forall v, v <> u -> load (signed_in u) db v = None)
  /\ (consistent db = true ->
      forall p, In p (rows db profiles) -> p Col.id = VUuid u ->
                load (signed_in u) db u = Some (selected p))
  /\ ((forall p, In p (rows db profiles) -> p Col.id <> VUuid u) ->
      load (signed_in u) db u = None).
Proof.
  unfold load, select_by_id, select_rows. split; [|split].
  - intros v Hv. rewrite filter_none; [reflexivity|]. intros r.
    rewrite using_ok_profiles.
    destruct (value_eqb (r Col.id) (VUuid u)) eqn:E; [|reflexivity].
    apply value_eqb_eq in E. rewrite E. simpl.
    destruct (N.eqb u v) eqn:Euv; [|reflexivity].
    apply N.eqb_eq in Euv. now subst.
  - intros C p Hp Ep.
    rewrite (filter_singleton (key_of profiles) _ _ p); [reflexivity| | | |].
    + now apply consistent_keys.
    + exact Hp.
    + rewrite using_ok_profiles, Ep. simpl. now rewrite N.eqb_refl.
    + intros x _ Hx. rewrite using_ok_profiles in Hx.
      apply andb_true_iff in Hx as [Hx _]. apply value_eqb_eq in Hx.
      unfold key_of. simpl. congruence.
  - intros No. rewrite filter_nil_in; [reflexivity|]. intros r Hr.
    rewrite using_ok_profiles.
    destruct (value_eqb (r Col.id) (VUuid u)) eqn:E; [|reflexivity].
    apply value_eqb_eq in E. now apply No in Hr.
Qed.

Lemma load_only_own_profile_witness :
  load (signed_in Sample.alice) Sample.db Sample.bob = None
  /\ load (signed_in Sample.alice) Sample.db Sample.alice
     = Some (selected (Sample.profile_of Sample.alice)).
Proof.
  destruct (load_only_own_profile Sample.alice Sample.db) as (O & M & _).
  split.
  - apply O. discriminate.
  - apply M; [reflexivity | now left | reflexivity].
Defined.

(** X16.  A signed-in user without a profile row cannot fill in the
    form: [getProfile] leaves the local profile empty, and an
    [updateProfile] finds no row to update, so it changes no row of the
    store and the local profile stays empty. *)
Theorem update_without_profile_is_lost u db updates :
  (forall p, In p (rows db profiles) -> p Col.id <> VUuid u) ->
  let st := getProfile (signed_in u) db u initial in
  let out := updateProfile (signed_in u) db u updates st in
  profile st = None
  /\ (forall t, rows (fst out) t = rows db t)
  /\ profile (snd out) = None.
Proof.
  intros No st out.
  assert (L : load (signed_in u) db u = None)
    by now apply load_only_own_profile.
  assert (P : profile st = None).
  { unfold st, getProfile. now rewrite L. }
  split; [exact P|]. subst out. unfold updateProfile.
  destruct (update_rows _ _ _ _ _) as [db'|e] eqn:E.
  - apply updateProfile_store in E. subst db'. simpl fst. simpl snd.
    split; [|now rewrite P].
    intros t. unfold with_rows. cbn [rows].
    destruct (table_eqb t profiles) eqn:Et; [|reflexivity].
    apply table_eqb_eq in Et. subst t.
    rewrite <- (map_id (rows db profiles)) at 2.
    apply map_ext_in. intros r Hr.
    destruct (value_eqb (r Col.id) (VUuid u)) eqn:Er; [|reflexivity].
    apply value_eqb_eq in Er. now apply No in Hr.
  - simpl. auto.
Qed.

Lemma update_without_profile_is_lost_witness :
  let carol := 30%N in
  let out := updateProfile (signed_in carol) Sample.db carol
               (mk_Partial (Some (VText "carol")) None None None)
               (getProfile (signed_in carol) Sample.db carol initial) in
  rows (fst out) profiles = rows Sample.db profiles
  /\ profile (snd out) = None.
Proof.
  intros carol out.
  destruct (update_without_profile_is_lost carol Sample.db
              (mk_Partial (Some (VText "carol")) None None None))
    as (_ & R & P).
  - intros p [<-|[<-|[]]]; discriminate.
  - split; [apply R | exact P].
Defined.

Lemma update_ok_consistent s db t w set db' :
  update_rows s db t w set = Ok db' -> consistent db' = true.
Proof.
  unfold update_rows. destruct (forallb _ _); [|discriminate].
  unfold commit. destruct (consistent _) eqn:C; [|discriminate].
  now intros [= <-].
Qed.

Lemma consistent_unique db t c :
  consistent db = true -> In c (unique_columns t) ->
  distinct (map (fun r => [r c])
              (filter (fun r => negb (is_null (r c))) (rows db t))) = true.
Proof.
  unfold consistent. intros H Hc. apply andb_true_iff in H as [H _].
  rewrite forallb_forall in H. specialize (H t (in_all_tables t)).
  unfold table_ok in H. apply andb_true_iff in H as [_ H].
  unfold unique_ok in H. rewrite forallb_forall in H. now apply H.
Qed.

(** X17.  [username text UNIQUE]: when another profile already has the
    username, an [updateProfile] that sets it fails at the store, and
    neither the store nor the local profile change. *)
Theorem taken_username_is_refused u db name updates st p q :
  In p (rows db profiles) -> p Col.id = VUuid u ->
  In q (rows db profiles) -> q Col.id <> VUuid u ->
  q Col.username = VText name ->
  set_username updates = Some (VText name) ->
  updateProfile (signed_in u) db u updates st = (db, st).
Proof.
  intros Hp Ep Hq Eq Uq Su. unfold updateProfile.
  destruct (update_rows _ _ _ _ _) as [db'|e] eqn:E; [|reflexivity].
  exfalso. pose proof (update_ok_consistent _ _ _ _ _ _ E) as C.
  apply updateProfile_store in E. subst db'.
  pose proof (consistent_unique _ profiles Col.username C
                (or_introl eq_refl)) as D.
  rewrite rows_with_rows in D.
  match type of D with
  | context [filter _ ?l] => set (rows' := l) in D
  end.
  assert (Hp' : In (assign updates p) rows').
  { apply in_map_iff. exists p. split; [|exact Hp].
    rewrite Ep. simpl. now rewrite N.eqb_refl. }
  assert (Hq' : In q rows').
  { apply in_map_iff. exists q. split; [|exact Hq].
    destruct (value_eqb (q Col.id) (VUuid u)) eqn:V; [|reflexivity].
    now apply value_eqb_eq in V. }
  assert (Same : assign updates p = q).
  { apply (distinct_inj (fun r => [r Col.username]) _ _ _ D).
    - apply filter_In. split; [exact Hp'|].
      unfold assign. now rewrite Su.
    - apply filter_In. split; [exact Hq'|]. now rewrite Uq.
    - unfold assign. now rewrite Su, Uq. }
  apply Eq. rewrite <- Same. exact Ep.
Qed.

Lemma taken_username_is_refused_witness :
  let db := with_rows Sample.db profiles
              [Sample.profile_of Sample.alice;
               set_col (Sample.profile_of Sample.bob) Col.username
                 (VText "chef")] in
  let st := mk_state false (Some (mk_Profile VNull VNull VNull VNull)) in
  consistent db = true
  /\ updateProfile (signed_in Sample.alice) db Sample.alice
       (mk_Partial (Some (VText "chef")) None None None) st
     = (db, st).
Proof.
  intros db st. split; [reflexivity|].
  apply (taken_username_is_refused Sample.alice db "chef" _ st
           (Sample.profile_of Sample.alice)
           (set_col (Sample.profile_of Sample.bob) Col.username
              (VText "chef"))).
  - now left.
  - reflexivity.
  - right. now left.
  - discriminate.
  - reflexivity.
  - reflexivity.
Defined.

End ProfileFacts.

(* ================================================================== *)
(** * Deletes that go through *)

Lemma forallb_filter {A} (f g : A -> bool) (l : list A) :
  forallb f l = true -> forallb f (filter g l) = true.
Proof.
  rewrite !forallb_forall. intros H x Hx. apply H.
  now apply filter_In in Hx.
Qed.

Lemma distinct_filter {A} (key : A -> list value) (g : A -> bool)
  (l : list A) :
  distinct (map key l) = true -> distinct (map key (filter g l)) = true.
Proof.
  induction l as [|a l IH]; intros D; [reflexivity|].
  simpl in D. apply andb_true_iff in D as [Fresh D]. simpl.
  destruct (g a); [|now apply IH]. simpl.
  rewrite IH by exact D. rewrite andb_true_r.
  apply negb_true_iff in Fresh. apply negb_true_iff.
  apply existsb_none. intros k Hk.
  destruct (key_eqb (key a) k) eqn:E; [|reflexivity].
  assert (T : existsb (key_eqb (key a)) (map key l) = true).
  { apply existsb_exists. exists k. split; [|exact E].
    apply in_map_iff in Hk as (x & <- & Hx). apply in_map.
    now apply filter_In in Hx. }
  now rewrite T in Fresh.
Qed.

(** The state a delete proposes satisfies the constraints when the state
    before does and no row that stays references, through a foreign key
    without [ON DELETE] action, a row that goes. *)
Lemma delete_commits db t hit :
  let doomed := cascade nesting_bound db
                  (fun t' r => table_eqb t' t && hit r) in
  let db' := mk_database
               (fun t' => filter (fun r => negb (doomed t' r)) (rows db t'))
               (auth_users db) in
  consistent db = true ->
  (forall fk pt c p,
     In fk foreign_keys -> fk_on_delete fk = NO_ACTION ->
     fk_parent fk = Public pt ->
     In c (rows db (fk_child fk)) -> doomed (fk_child fk) c = false ->
     In p (rows db pt) -> doomed pt p = true ->
     p Col.id <> c (fk_col fk)) ->
  delete_where db t hit = Ok db'.
Proof.
  intros doomed db' C NA. unfold delete_where, commit.
  fold doomed. fold db'.
  assert (C' : consistent db' = true); [|now rewrite C'].
  unfold consistent in *. apply andb_true_iff in C as [Tb Fk].
  rewrite forallb_forall in Tb, Fk.
  apply andb_true_iff. split; apply forallb_forall.
  - intros t' Ht'. specialize (Tb t' Ht'). unfold table_ok in *.
    apply andb_true_iff in Tb as [Tb U]. apply andb_true_iff in Tb as [W D].
    unfold db'. cbn [rows]. rewrite !andb_true_iff. repeat split.
    + now apply forallb_filter.
    + now apply distinct_filter.
    + unfold unique_ok in *. rewrite forallb_forall in U.
      apply forallb_forall. intros c Hc. specialize (U c Hc).
      rewrite filter_filter.
      rewrite (filter_ext _ (fun r => negb (is_null (r c))
                                      && negb (doomed t' r)))
        by (intros r; apply andb_comm).
      rewrite <- filter_filter. now apply distinct_filter.
  - intros fk Hfk. specialize (Fk fk Hfk). unfold fk_ok in *.
    rewrite forallb_forall in Fk. apply forallb_forall.
    intros c Hc. unfold db' in Hc. cbn [rows] in Hc.
    apply filter_In in Hc as [Hc Kept]. apply negb_true_iff in Kept.
    specialize (Fk c Hc).
    destruct (is_null (c (fk_col fk))) eqn:Null; [reflexivity|].
    simpl in Fk. simpl.
    destruct (fk_parent fk) as [pt|] eqn:Par; [|exact Fk].
    apply existsb_exists in Fk as (p & Hp & E).
    apply existsb_exists. exists p. split; [|exact E].
    unfold db'. cbn [rows]. apply filter_In. split; [exact Hp|].
    apply negb_true_iff. destruct (doomed pt p) eqn:Dp; [|reflexivity].
    exfalso. apply value_eqb_eq in E.
    destruct (fk_on_delete fk) eqn:Act.
    + now apply (NA fk pt c p).
    + assert (Hc' : In fk cascades).
      { apply filter_In. split; [exact Hfk|]. now rewrite Act. }
      assert (Root : cascading_from pt = [])
        by exact (cascade_parent_is_root fk pt Hc' Par).
      unfold doomed in Dp. rewrite cascade_root in Dp by exact Root.
      assert (T : doomed (fk_child fk) c = true).
      { unfold doomed.
        change (cascade nesting_bound db ?d (fk_child fk) c)
          with (cascade 8 db (cascade_step db d) (fk_child fk) c).
        apply cascade_incr.
        apply (cascade_step_takes db _ fk pt p c Hc' Par Hp Dp).
        split; [now symmetry|]. rewrite E. intros N.
        now rewrite N in Null. }
      now rewrite T in Kept.
Qed.

Lemma delete_ok_consistent db t hit db' :
  delete_where db t hit = Ok db' -> consistent db' = true.
Proof.
  unfold delete_where, commit. destruct (consistent _) eqn:C; [|discriminate].
  now intros [= <-].
Qed.

(** X18.  From a state that satisfies the constraints, the delete of a
    meal plan or of a shopping list by id goes through, provided, for a
    meal plan, that no shopping list is linked to it.  The state after
    satisfies the constraints again, and the rows that are left in the
    table are all but the caller's own row with that id: somebody else's
    row stays. *)
Theorem owner_deletes_own_plan_or_list u db t i :
  t = meal_plans \/ t = shopping_lists ->
  consistent db = true ->
  (t = meal_plans ->
   forall l, In l (rows db shopping_lists) ->
             l Col.meal_plan_id <> VUuid i) ->
  exists db',
    delete_rows (signed_in u) db t (fun r => sql_eq (r Col.id) (VUuid i))
    = Ok db'
    /\ consistent db' = true
    /\ forall p, In p (rows db' t)
                 <-> In p (rows db t)
                     /\ ~ (p Col.id = VUuid i /\ p Col.user_id = VUuid u).
Proof.
  intros Ht C Free. unfold delete_rows.
  set (hit := fun r => using_ok (signed_in u) db t DELETE r
                       && is_true (sql_eq (r Col.id) (VUuid i))).
  assert (Root : cascading_from t = []) by (destruct Ht; now subst t).
  assert (Hit : forall p, hit p = true
                          <-> p Col.id = VUuid i /\ p Col.user_id = VUuid u).
  { intros p. unfold hit.
    rewrite andb_true_iff, sql_eq_true, using_ok_signed_in.
    assert (O : match t with
                | profiles | recipes | tags => False
                | _ => owned_by db u t p
                end <-> p Col.user_id = VUuid u)
      by (destruct Ht; subst t; reflexivity).
    rewrite O. split.
    - intros [Ho [E _]]. now split.
    - intros [E Ho]. repeat split; auto. discriminate. }
  set (doomed := cascade nesting_bound db
                   (fun t0 r0 => table_eqb t0 t && hit r0)).
  assert (E : delete_where db t hit
              = Ok (mk_database
                      (fun t' => filter (fun r => negb (doomed t' r))
                                   (rows db t'))
                      (auth_users db))).
  { apply (delete_commits db t hit C).
    intros fk pt c p Hfk Act Par Hc _ Hp Dp.
    assert (D0 : table_eqb pt t && hit p = true).
    { simpl in Hfk.
      repeat (destruct Hfk as [<-|Hfk];
              [try discriminate Act; try discriminate Par;
               injection Par as <-;
               now rewrite cascade_root in Dp by reflexivity|]).
      contradiction. }
    apply andb_true_iff in D0 as [Tt Hh]. apply table_eqb_eq in Tt.
    subst pt. apply Hit in Hh as [Ei _]. rewrite Ei.
    simpl in Hfk.
    repeat (destruct Hfk as [<-|Hfk];
            [try discriminate Act; try discriminate Par;
             injection Par as Par; cbn [fk_child fk_col] in *|]);
      try contradiction.
    - destruct Ht; congruence.
    - intros N. apply (Free (eq_sym Par) c Hc). congruence. }
  eexists. split; [exact E|]. split.
  - exact (delete_ok_consistent db t hit _ E).
  - intros p. cbn [rows]. rewrite filter_In. unfold doomed.
    rewrite cascade_root by exact Root.
    rewrite table_eqb_refl. simpl. rewrite negb_true_iff.
    rewrite <- Hit. now destruct (hit p).
Qed.

Lemma owner_deletes_own_plan_or_list_witness :
  exists db',
    delete_rows (signed_in Sample.alice) Sample.db meal_plans
      (fun r => sql_eq (r Col.id) (VUuid 7)) = Ok db'
    /\ consistent db' = true
    /\ ~ In Sample.week (rows db' meal_plans).
Proof.
  destruct (owner_deletes_own_plan_or_list Sample.alice Sample.db
              meal_plans 7) as (db' & E & C & R).
  - now left.
  - reflexivity.
  - intros _ l [].
  - exists db'. split; [exact E|]. split; [exact C|].
    intros H. apply R in H as [_ H]. apply H. split; reflexivity.
Defined.

(* ================================================================== *)
(** * Hidden rows and silent statements *)

(** X19.  The ingredients of a recipe are as visible as the recipe: a
    signed-in user selects an ingredient exactly when it references a
    recipe that is public or their own.  An ingredient whose [recipe_id]
    is NULL is selected by nobody. *)
Theorem ingredient_follows_recipe u db r :
  (In r (select_all (signed_in u) db recipe_ingredients)
   <-> In r (rows db recipe_ingredients)
       /\ exists p, In p (rows db recipes) /\ refers_to r Col.recipe_id p
                    /\ (p Col.is_public = VBool true
                        \/ p Col.user_id = VUuid u))
  /\ (r Col.recipe_id = VNull ->
      ~ In r (select_all (signed_in u) db recipe_ingredients)).
Proof.
  assert (V : In r (select_all (signed_in u) db recipe_ingredients)
              <-> In r (rows db recipe_ingredients)
                  /\ exists p, In p (rows db recipes)
                               /\ refers_to r Col.recipe_id p
                               /\ (p Col.is_public = VBool true
                                   \/ p Col.user_id = VUuid u)).
  { unfold select_all, select_rows.
    now rewrite filter_In, andb_true_r, using_ok_signed_in. }
  split; [exact V|].
  intros Null H. apply V in H as (_ & p & _ & [E N] & _). congruence.
Qed.

Lemma cascade_none_in n db : forall d,
  (forall t r, In r (rows db t) -> d t r = false) ->
  forall t r, In r (rows db t) -> cascade n db d t r = false.
Proof.
  induction n as [|n IH]; intros d H t r Hr; simpl; [now apply H|].
  apply IH; [|exact Hr]. clear t r Hr. intros t r Hr.
  unfold cascade_step. rewrite (H t r Hr).
  apply existsb_none. intros fk _.
  destruct (table_eqb (fk_child fk) t && is_cascade (fk_on_delete fk));
    [|reflexivity].
  destruct (fk_parent fk) as [pt|]; [|reflexivity].
  apply existsb_none. intros pr Hpr. now rewrite (H pt pr Hpr).
Qed.

Lemma forallb_same {A} (f g : A -> bool) (l : list A) :
  (forall x, f x = g x) -> forallb f l = forallb g l.
Proof.
  intros H. induction l as [|a l IH]; [reflexivity|]. simpl.
  now rewrite H, IH.
Qed.

(** The constraints look at the rows and at the users only. *)
Lemma consistent_ext a b :
  (forall t, rows a t = rows b t) -> auth_users a = auth_users b ->
  consistent a = consistent b.
Proof.
  intros R U. unfold consistent. f_equal.
  - apply forallb_same. intros t. unfold table_ok. now rewrite R.
  - apply forallb_same. intros fk. unfold fk_ok. rewrite R, U.
    apply forallb_same. intros r.
    destruct (fk_parent fk); [now rewrite R|reflexivity].
Qed.

(** X20.  An update or a delete that names only rows the caller may not
    write is not refused.  From a state that satisfies the constraints it
    reports success, and the state after has the same rows in every
    table: the rows the policies hide are skipped, not answered with an
    authorization failure. *)
Theorem hidden_rows_skipped_silently s db t w set :
  consistent db = true ->
  (forall r, In r (rows db t) -> is_true (w r) = true ->
             using_ok s db t UPDATE r = false
             /\ using_ok s db t DELETE r = false) ->
  (exists db', update_rows s db t w set = Ok db'
               /\ forall t', rows db' t' = rows db t')
  /\ (exists db', delete_rows s db t w = Ok db'
                  /\ forall t', rows db' t' = rows db t').
Proof.
  intros C H.
  assert (NoU : forall r, In r (rows db t) ->
                          using_ok s db t UPDATE r && is_true (w r) = false).
  { intros r Hr. destruct (is_true (w r)) eqn:W.
    - now rewrite (proj1 (H r Hr W)).
    - apply andb_false_r. }
  assert (NoD : forall r, In r (rows db t) ->
                          using_ok s db t DELETE r && is_true (w r) = false).
  { intros r Hr. destruct (is_true (w r)) eqn:W.
    - now rewrite (proj2 (H r Hr W)).
    - apply andb_false_r. }
  split.
  - unfold update_rows. rewrite (filter_nil_in _ _ NoU). simpl.
    assert (M : map (fun r => if using_ok s db t UPDATE r && is_true (w r)
                              then set r else r) (rows db t) = rows db t).
    { rewrite <- (map_id (rows db t)) at 2. apply map_ext_in.
      intros r Hr. now rewrite (NoU r Hr). }
    rewrite M.
    assert (R : forall t', rows (with_rows db t (rows db t)) t' = rows db t').
    { intros t'. simpl. destruct (table_eqb t' t) eqn:E; [|reflexivity].
      apply table_eqb_eq in E. now subst. }
    unfold commit. rewrite (consistent_ext _ db R eq_refl), C.
    eexists. split; [reflexivity|exact R].
  - unfold delete_rows.
    set (hit := fun r => using_ok s db t DELETE r && is_true (w r)).
    assert (Q : forall t' r, In r (rows db t') ->
                  cascade nesting_bound db
                    (fun t0 r0 => table_eqb t0 t && hit r0) t' r = false).
    { apply cascade_none_in. intros t0 r0 Hr0.
      destruct (table_eqb t0 t) eqn:E; [|reflexivity].
      apply table_eqb_eq in E. subst t0. simpl. now apply NoD. }
    rewrite (delete_commits db t hit C).
    + eexists. split; [reflexivity|]. intros t'. cbn [rows].
      apply filter_all. intros r Hr. now rewrite (Q t' r Hr).
    + intros fk pt c p _ _ _ _ _ Hp Dp. now rewrite (Q pt p Hp) in Dp.
Qed.

Lemma hidden_rows_skipped_silently_witness :
  exists db',
    update_rows (signed_in Sample.bob) Sample.db recipes
      (fun r => sql_eq (r Col.id) (VUuid 2))
      (fun r => set_col r Col.title (VText "Bob's cake")) = Ok db'
    /\ rows db' recipes = [Sample.soup; Sample.cake].
Proof.
  destruct (hidden_rows_skipped_silently (signed_in Sample.bob) Sample.db
              recipes (fun r => sql_eq (r Col.id) (VUuid 2))
              (fun r => set_col r Col.title (VText "Bob's cake")))
    as [(db' & E & R) _].
  - reflexivity.
  - intros r [<-|[<-|[]]] W; [discriminate W|]. split; reflexivity.
  - exists db'. split; [exact E|]. apply R.
Defined.
